(** * SecureHost Control Suite: the two kernel drivers

    A shallow embedding of
      - src/drivers/SecureHostDevice/driver.c  (module [Device])
      - src/drivers/SecureHostWFP/driver.c     (module [Wfp])
    together with the properties of the policy lookup, the device
    dispatcher, callout registration and the classify callback.

    Conventions.
      - C integers are [Z]; a narrowing cast is written as [mod 2^w].
      - NTSTATUS is a signed 32-bit LONG, so failure codes are negative.
      - In module [Device] a LIST_ENTRY chain is the list of the
        records the code reads at its entries, head first.  Module
        [DeviceLayout] has the chain and the records in memory, byte by
        byte, and says when the two agree.
      - Calls into the host (spin locks, pool, request completion, the
        filter engine) are explicit state transformers. *)

From Stdlib Require Import ZArith List Bool Lia.
Import ListNotations.
Local Open Scope Z_scope.

(** ** NTSTATUS *)

Module Nt.

Definition NTSTATUS := Z.

(** Reinterpretation of a 32-bit pattern as a signed LONG. *)
Definition to_LONG (x : Z) : Z := (x + 2 ^ 31) mod 2 ^ 32 - 2 ^ 31.

Definition STATUS_SUCCESS : NTSTATUS := 0.

(** Modelled from the spec: the host header constant behind the spec's
    "access-denied status" (ntstatus.h is not part of the repository);
    the value is the one the host publishes, 0xC0000022. *)
Definition STATUS_ACCESS_DENIED : NTSTATUS := to_LONG 0xC0000022.

(** Modelled from the spec: the host header constant behind the spec's
    "unsupported request" error (ntstatus.h is not part of the
    repository); the value is the one the host publishes, 0xC0000010. *)
Definition STATUS_INVALID_DEVICE_REQUEST : NTSTATUS := to_LONG 0xC0000010.

(** Modelled from the spec: the status the host's callout registry gives
    for an identifier that denotes no active registration (0xC0220001). *)
Definition STATUS_FWP_CALLOUT_NOT_FOUND : NTSTATUS := to_LONG 0xC0220001.

(** [#define NT_SUCCESS(Status) (((NTSTATUS)(Status)) >= 0)] *)
Definition NT_SUCCESS (Status : NTSTATUS) : bool := 0 <=? Status.

End Nt.

(** ** The device access-control driver *)

Module Device.
Import Nt.

Inductive SECUREHOST_DEVICE_TYPE : Set :=
| DeviceTypeCamera
| DeviceTypeMicrophone
| DeviceTypeUSB
| DeviceTypeBluetooth
| DeviceTypeUnknown.

(** The enumerators' integer values. *)
Definition device_type_value (t : SECUREHOST_DEVICE_TYPE) : Z :=
  match t with
  | DeviceTypeCamera => 1
  | DeviceTypeMicrophone => 2
  | DeviceTypeUSB => 3
  | DeviceTypeBluetooth => 4
  | DeviceTypeUnknown => 0
  end.

(** [a == b] on the enumeration. *)
Definition device_type_eqb (a b : SECUREHOST_DEVICE_TYPE) : bool :=
  device_type_value a =? device_type_value b.

(** [struct _SECUREHOST_DEVICE_POLICY]; [Allowed] is a BOOLEAN (UCHAR,
    nonzero means true), [ProcessName] a WCHAR buffer. *)
Record SECUREHOST_DEVICE_POLICY : Set := {
  DeviceType : SECUREHOST_DEVICE_TYPE;
  ProcessId : Z;
  Allowed : Z;
  ProcessName : list Z
}.

Record DEVICE_CONTEXT : Set := {
  Device : Z;
  Queue : Z;
  DevType : SECUREHOST_DEVICE_TYPE
}.

(** [struct _DRIVER_CONTEXT].  [PolicyLock] is the spin lock word: 0 when
    released, 1 while held. *)
Record DRIVER_CONTEXT : Set := {
  Driver : Z;
  PolicyLock : Z;
  PolicyList : list SECUREHOST_DEVICE_POLICY
}.

Definition set_PolicyLock (c : DRIVER_CONTEXT) (v : Z) : DRIVER_CONTEXT :=
  {| Driver := Driver c; PolicyLock := v; PolicyList := PolicyList c |}.

Definition set_PolicyList (c : DRIVER_CONTEXT)
    (l : list SECUREHOST_DEVICE_POLICY) : DRIVER_CONTEXT :=
  {| Driver := Driver c; PolicyLock := PolicyLock c; PolicyList := l |}.

(** *** Host primitives used by the driver *)

Definition KIRQL := Z.
Definition DISPATCH_LEVEL : KIRQL := 2.

(** [KeAcquireSpinLock(&Context->PolicyLock, &oldIrql)]: raises the IRQL
    to DISPATCH_LEVEL, takes the lock and hands back the previous IRQL. *)
Definition KeAcquireSpinLock (c : DRIVER_CONTEXT) (irql : KIRQL)
  : DRIVER_CONTEXT * KIRQL * KIRQL :=
  (set_PolicyLock c 1, DISPATCH_LEVEL, irql).

(** [KeReleaseSpinLock(&Context->PolicyLock, oldIrql)]. *)
Definition KeReleaseSpinLock (c : DRIVER_CONTEXT) (oldIrql : KIRQL)
  : DRIVER_CONTEXT * KIRQL :=
  (set_PolicyLock c 0, oldIrql).

(** [DriverEntry], after [WdfDriverCreate] gave [driver]: the context is
    zeroed, then the lock and the list head are initialised. *)
Definition DriverEntry_context (driver : Z) : DRIVER_CONTEXT :=
  {| Driver := driver; PolicyLock := 0; PolicyList := [] |}.

(** *** SecureHostCheckDeviceAccess *)

(** The condition of the outer [if] in the loop body. *)
Definition policy_applies (policy : SECUREHOST_DEVICE_POLICY)
    (DeviceType0 : SECUREHOST_DEVICE_TYPE) (ProcessId0 : Z) : bool :=
  device_type_eqb (DeviceType policy) DeviceType0 &&
  ((ProcessId policy =? 0) || (ProcessId policy =? ProcessId0)).

(** [if (policy->Allowed)]. *)
Definition policy_allowed (policy : SECUREHOST_DEVICE_POLICY) : bool :=
  negb (Allowed policy =? 0).

(** The [for] loop over the list, started at [entry] with the running
    [status].  [entry] holds, for each link of the chain up to the list
    head, the record the loop reads there through [CONTAINING_RECORD]:
    the three members as the bytes at the link show them, which are not
    the members a writer stored, because the link lies over them
    ([DeviceLayout]).
    Besides the status the function returns the entries on which the
    loop body ran, in the order it ran on them (a ghost trace: the code
    keeps only [status]).  [break] ends the recursion. *)
Fixpoint policy_scan (entry : list SECUREHOST_DEVICE_POLICY)
    (DeviceType0 : SECUREHOST_DEVICE_TYPE) (ProcessId0 : Z)
    (status : NTSTATUS) : NTSTATUS * list SECUREHOST_DEVICE_POLICY :=
  match entry with
  | [] => (status, [])
  | policy :: Flink =>
      if policy_applies policy DeviceType0 ProcessId0 then
        if policy_allowed policy then
          (STATUS_SUCCESS, [policy])
        else
          let r := policy_scan Flink DeviceType0 ProcessId0 status in
          (fst r, policy :: snd r)
      else
        let r := policy_scan Flink DeviceType0 ProcessId0 status in
        (fst r, policy :: snd r)
  end.

(** [SecureHostCheckDeviceAccess(Context, DeviceType, ProcessId)], run at
    IRQL [irql]; returns the status with the context and IRQL it leaves. *)
Definition SecureHostCheckDeviceAccess (Context : DRIVER_CONTEXT)
    (irql : KIRQL) (DeviceType0 : SECUREHOST_DEVICE_TYPE) (ProcessId0 : Z)
  : NTSTATUS * (DRIVER_CONTEXT * KIRQL) :=
  let status := STATUS_ACCESS_DENIED in
  let '(Context1, irql1, oldIrql) := KeAcquireSpinLock Context irql in
  let status :=
    fst (policy_scan (PolicyList Context1) DeviceType0 ProcessId0 status) in
  (status, KeReleaseSpinLock Context1 oldIrql).

(** *** SecureHostDriverCleanup *)

(** The [while (!IsListEmpty(&context->PolicyList))] loop.  [entry] is
    the chain hanging off the list head at the loop test; each round
    [RemoveHeadList] unlinks the head entry and [ExFreePoolWithTag] frees
    it.  [freed] is the pool's record of freed policies, oldest first. *)
Fixpoint cleanup_loop (entry : list SECUREHOST_DEVICE_POLICY)
    (context : DRIVER_CONTEXT) (freed : list SECUREHOST_DEVICE_POLICY)
  : DRIVER_CONTEXT * list SECUREHOST_DEVICE_POLICY :=
  match entry with
  | [] => (context, freed)
  | policy :: Flink =>
      cleanup_loop Flink (set_PolicyList context Flink) (freed ++ [policy])
  end.

Definition SecureHostDriverCleanup (context : DRIVER_CONTEXT)
    (freed : list SECUREHOST_DEVICE_POLICY)
  : DRIVER_CONTEXT * list SECUREHOST_DEVICE_POLICY :=
  cleanup_loop (PolicyList context) context freed.

(** *** SecureHostIoDeviceControl *)

(** [CTL_CODE(DeviceType, Function, Method, Access)]. *)
Definition CTL_CODE (DeviceType0 Function Method Access : Z) : Z :=
  Z.lor (Z.lor (Z.lor (Z.shiftl DeviceType0 16) (Z.shiftl Access 14))
           (Z.shiftl Function 2)) Method.

Definition FILE_DEVICE_UNKNOWN : Z := 0x22.
Definition METHOD_BUFFERED : Z := 0.
Definition FILE_ANY_ACCESS : Z := 0.

Definition IOCTL_SECUREHOST_CHECK_ACCESS : Z :=
  CTL_CODE FILE_DEVICE_UNKNOWN 0x800 METHOD_BUFFERED FILE_ANY_ACCESS.

(** What the dispatcher sees of the machine: the driver context, the
    current IRQL, the calling process and the completions the framework
    has received, oldest first, as (request, status). *)
Record KERNEL : Set := {
  Context : DRIVER_CONTEXT;
  Irql : KIRQL;
  CurrentProcessId : Z;
  Completed : list (Z * NTSTATUS)
}.

(** [HandleToUlong]: truncation of the handle to 32 bits. *)
Definition HandleToUlong (h : Z) : Z := h mod 2 ^ 32.

(** [WdfRequestComplete(Request, status)]. *)
Definition WdfRequestComplete (k : KERNEL) (Request : Z) (status : NTSTATUS)
  : KERNEL :=
  {| Context := Context k; Irql := Irql k;
     CurrentProcessId := CurrentProcessId k;
     Completed := Completed k ++ [(Request, status)] |}.

Definition SecureHostIoDeviceControl (k : KERNEL)
    (deviceContext : DEVICE_CONTEXT) (Request : Z) (IoControlCode : Z)
  : KERNEL :=
  let processId := HandleToUlong (CurrentProcessId k) in
  if IoControlCode =? IOCTL_SECUREHOST_CHECK_ACCESS then
    let '(status, (c, irql)) :=
      SecureHostCheckDeviceAccess (Context k) (Irql k)
        (DevType deviceContext) processId in
    let k1 := {| Context := c; Irql := irql;
                 CurrentProcessId := CurrentProcessId k;
                 Completed := Completed k |} in
    let status :=
      if negb (NT_SUCCESS status) then STATUS_ACCESS_DENIED else status in
    WdfRequestComplete k1 Request status
  else
    WdfRequestComplete k Request STATUS_INVALID_DEVICE_REQUEST.

(** [SecureHostIdentifyDevice]: the stub always answers "unknown". *)
Definition SecureHostIdentifyDevice (DeviceInit : Z) : SECUREHOST_DEVICE_TYPE :=
  DeviceTypeUnknown.

End Device.

(** ** The WFP network callout driver *)

Module Wfp.
Import Nt.

(** *** Driver data *)

Record GUID : Set := {
  Data1 : Z;
  Data2 : Z;
  Data3 : Z;
  Data4 : list Z
}.

Definition SECUREHOST_WFP_CALLOUT_V4_GUID : GUID :=
  {| Data1 := 0xe5f6a7b8; Data2 := 0xc9d0; Data3 := 0x8e9f;
     Data4 := [0x2a; 0x3b; 0x4c; 0x5d; 0x6e; 0x7f; 0x8a; 0x9b] |}.

Definition SECUREHOST_WFP_CALLOUT_V6_GUID : GUID :=
  {| Data1 := 0xf6a7b8c9; Data2 := 0xd0e1; Data3 := 0x9f0a;
     Data4 := [0x3b; 0x4c; 0x5d; 0x6e; 0x7f; 0x8a; 0x9b; 0x0c] |}.

Definition SECUREHOST_WFP_SUBLAYER_GUID : GUID :=
  {| Data1 := 0xa7b8c9d0; Data2 := 0xe1f2; Data3 := 0x0a1b;
     Data4 := [0x4c; 0x5d; 0x6e; 0x7f; 0x8a; 0x9b; 0x0c; 0x1d] |}.

Record SECUREHOST_POLICY_RULE : Set := {
  RuleId : Z;
  ProcessId : Z;
  Protocol : Z;
  LocalPort : Z;
  RemotePort : Z;
  Action : Z;
  Enabled : Z
}.

Definition HANDLE := Z.
Definition NULL : HANDLE := 0.

Record SECUREHOST_DRIVER_CONTEXT : Set := {
  Driver : Z;
  EngineHandle : HANDLE;
  CalloutIdV4 : Z;
  CalloutIdV6 : Z;
  FilterIdV4 : Z;
  FilterIdV6 : Z;
  RulesLock : Z;
  RulesList : list SECUREHOST_POLICY_RULE;
  NextRuleId : Z
}.

Definition set_EngineHandle (c : SECUREHOST_DRIVER_CONTEXT) (v : HANDLE) :=
  {| Driver := Driver c; EngineHandle := v;
     CalloutIdV4 := CalloutIdV4 c; CalloutIdV6 := CalloutIdV6 c;
     FilterIdV4 := FilterIdV4 c; FilterIdV6 := FilterIdV6 c;
     RulesLock := RulesLock c; RulesList := RulesList c;
     NextRuleId := NextRuleId c |}.

Definition set_CalloutIdV4 (c : SECUREHOST_DRIVER_CONTEXT) (v : Z) :=
  {| Driver := Driver c; EngineHandle := EngineHandle c;
     CalloutIdV4 := v; CalloutIdV6 := CalloutIdV6 c;
     FilterIdV4 := FilterIdV4 c; FilterIdV6 := FilterIdV6 c;
     RulesLock := RulesLock c; RulesList := RulesList c;
     NextRuleId := NextRuleId c |}.

Definition set_CalloutIdV6 (c : SECUREHOST_DRIVER_CONTEXT) (v : Z) :=
  {| Driver := Driver c; EngineHandle := EngineHandle c;
     CalloutIdV4 := CalloutIdV4 c; CalloutIdV6 := v;
     FilterIdV4 := FilterIdV4 c; FilterIdV6 := FilterIdV6 c;
     RulesLock := RulesLock c; RulesList := RulesList c;
     NextRuleId := NextRuleId c |}.

(** [DriverEntry], between [WdfDriverCreate] and the registration: the
    context is zeroed, then [Driver], the lock, the list head and
    [NextRuleId] are set. *)
Definition DriverEntry_context (driver : Z) : SECUREHOST_DRIVER_CONTEXT :=
  {| Driver := driver; EngineHandle := NULL;
     CalloutIdV4 := 0; CalloutIdV6 := 0; FilterIdV4 := 0; FilterIdV6 := 0;
     RulesLock := 0; RulesList := []; NextRuleId := 1 |}.

(** *** The host's filter engine

    The engine is outside the repository.  It is modelled by the state
    the driver can observe through the calls it makes: the open engine
    sessions, the transaction and its pending management objects, the
    registry of runtime callouts, and the record of every call with its
    result.  Whether a fallible call succeeds is the host's choice,
    given by a response function [env]. *)

Inductive LAYER : Set :=
| FWPM_LAYER_ALE_AUTH_CONNECT_V4
| FWPM_LAYER_ALE_AUTH_CONNECT_V6.

Inductive HostCall : Set :=
| EngineOpen
| TransactionBegin (engine : HANDLE)
| CalloutRegister (calloutKey : GUID)
| CalloutUnregisterById (calloutId : Z)
| SubLayerAdd (engine : HANDLE) (subLayerKey : GUID) (weight : Z)
| CalloutAdd (engine : HANDLE) (calloutKey : GUID) (applicableLayer : LAYER)
| TransactionAbort (engine : HANDLE)
| TransactionCommit (engine : HANDLE)
| EngineClose (engine : HANDLE).

(** One call as the host saw it: its result and the handle or
    identifier it wrote back (0 when it writes none). *)
Record Event : Set := {
  ev_call : HostCall;
  ev_status : NTSTATUS;
  ev_out : Z
}.

Record HOST : Set := {
  OpenEngines : list HANDLE;
  InTransaction : bool;
  Pending : list GUID;
  Objects : list GUID;
  Callouts : list Z;
  NextHandle : positive;
  NextCalloutId : positive;
  Trace : list Event
}.

(** Removal of one registration (or one open session) from a registry. *)
Fixpoint remove_first (x : Z) (l : list Z) : list Z :=
  match l with
  | [] => []
  | y :: l' => if x =? y then l' else y :: remove_first x l'
  end.

Fixpoint memb (x : Z) (l : list Z) : bool :=
  match l with
  | [] => false
  | y :: l' => (x =? y) || memb x l'
  end.

Definition log (h : HOST) (call : HostCall) (status : NTSTATUS) (out : Z)
  : HOST :=
  {| OpenEngines := OpenEngines h; InTransaction := InTransaction h;
     Pending := Pending h; Objects := Objects h; Callouts := Callouts h;
     NextHandle := NextHandle h; NextCalloutId := NextCalloutId h;
     Trace := Trace h ++
       [{| ev_call := call; ev_status := status; ev_out := out |}] |}.

Definition with_engines (h : HOST) (l : list HANDLE) (n : positive) : HOST :=
  {| OpenEngines := l; InTransaction := InTransaction h;
     Pending := Pending h; Objects := Objects h; Callouts := Callouts h;
     NextHandle := n; NextCalloutId := NextCalloutId h;
     Trace := Trace h |}.

Definition with_callouts (h : HOST) (l : list Z) (n : positive) : HOST :=
  {| OpenEngines := OpenEngines h; InTransaction := InTransaction h;
     Pending := Pending h; Objects := Objects h; Callouts := l;
     NextHandle := NextHandle h; NextCalloutId := n;
     Trace := Trace h |}.

Definition with_transaction (h : HOST) (b : bool) (pending objects : list GUID)
  : HOST :=
  {| OpenEngines := OpenEngines h; InTransaction := b;
     Pending := pending; Objects := objects; Callouts := Callouts h;
     NextHandle := NextHandle h; NextCalloutId := NextCalloutId h;
     Trace := Trace h |}.

(** *** A state monad over host and driver context *)

Definition STATE : Set := (HOST * SECUREHOST_DRIVER_CONTEXT)%type.
Definition M (A : Type) : Type := STATE -> A * STATE.

Definition ret {A : Type} (a : A) : M A := fun s => (a, s).

Definition bind {A B : Type} (m : M A) (k : A -> M B) : M B :=
  fun s => let (a, s') := m s in k a s'.

Definition context : M SECUREHOST_DRIVER_CONTEXT := fun s => (snd s, s).

Definition host_step {A : Type} (f : HOST -> A * HOST) : M A :=
  fun s => let (a, h') := f (fst s) in (a, (h', snd s)).

Definition store (f : SECUREHOST_DRIVER_CONTEXT -> SECUREHOST_DRIVER_CONTEXT)
  : M unit :=
  fun s => (tt, (fst s, f (snd s))).

Declare Scope wfp_scope.
Delimit Scope wfp_scope with wfp.
Notation "x <- c ;; k" := (bind c (fun x => k))
  (at level 61, c at next level, right associativity) : wfp_scope.
Notation "c ;; k" := (bind c (fun _ => k))
  (at level 61, right associativity) : wfp_scope.
Local Open Scope wfp_scope.

Section Host.

Variable env : HostCall -> NTSTATUS.

(** [FwpmEngineOpen0(NULL, RPC_C_AUTHN_DEFAULT, NULL, NULL, out)]: on
    success a fresh, non-NULL session handle is written through [out];
    on failure [out] is left alone. *)
Definition FwpmEngineOpen0
    (out : HANDLE -> SECUREHOST_DRIVER_CONTEXT -> SECUREHOST_DRIVER_CONTEXT)
  : M NTSTATUS :=
  fun s =>
    let (h, c) := s in
    let status := env EngineOpen in
    if NT_SUCCESS status then
      let e := Z.pos (NextHandle h) in
      (status,
       (log (with_engines h (e :: OpenEngines h) (Pos.succ (NextHandle h)))
          EngineOpen status e,
        out e c))
    else (status, (log h EngineOpen status 0, c)).

(** [FwpmEngineClose0(engine)]: the session ends. *)
Definition FwpmEngineClose0 (engine : HANDLE) : M unit :=
  host_step (fun h =>
    (tt, log (with_engines h (remove_first engine (OpenEngines h))
                (NextHandle h))
           (EngineClose engine) STATUS_SUCCESS 0)).

Definition FwpmTransactionBegin0 (engine : HANDLE) : M NTSTATUS :=
  host_step (fun h =>
    let status := env (TransactionBegin engine) in
    if NT_SUCCESS status then
      (status, log (with_transaction h true [] (Objects h))
                 (TransactionBegin engine) status 0)
    else (status, log h (TransactionBegin engine) status 0)).

(** [FwpmTransactionAbort0(engine)]: the pending objects are dropped. *)
Definition FwpmTransactionAbort0 (engine : HANDLE) : M unit :=
  host_step (fun h =>
    (tt, log (with_transaction h false [] (Objects h))
           (TransactionAbort engine) STATUS_SUCCESS 0)).

(** [FwpmTransactionCommit0(engine)]: on success the pending objects
    become permanent. *)
Definition FwpmTransactionCommit0 (engine : HANDLE) : M NTSTATUS :=
  host_step (fun h =>
    let status := env (TransactionCommit engine) in
    if NT_SUCCESS status then
      (status, log (with_transaction h false [] (Objects h ++ Pending h))
                 (TransactionCommit engine) status 0)
    else (status, log h (TransactionCommit engine) status 0)).

(** [FwpsCalloutRegister3(deviceObject, &callout, out)]: on success the
    callout is live under a fresh, nonzero runtime identifier, written
    through [out]. *)
Definition FwpsCalloutRegister3 (calloutKey : GUID)
    (out : Z -> SECUREHOST_DRIVER_CONTEXT -> SECUREHOST_DRIVER_CONTEXT)
  : M NTSTATUS :=
  fun s =>
    let (h, c) := s in
    let status := env (CalloutRegister calloutKey) in
    if NT_SUCCESS status then
      let id := Z.pos (NextCalloutId h) in
      (status,
       (log (with_callouts h (id :: Callouts h) (Pos.succ (NextCalloutId h)))
          (CalloutRegister calloutKey) status id,
        out id c))
    else (status, (log h (CalloutRegister calloutKey) status 0, c)).

(** [FwpsCalloutUnregisterById0(calloutId)]: a live registration is
    removed; an identifier that denotes none is answered with
    STATUS_FWP_CALLOUT_NOT_FOUND.  The driver ignores the result. *)
Definition FwpsCalloutUnregisterById0 (calloutId : Z) : M unit :=
  host_step (fun h =>
    if memb calloutId (Callouts h) then
      (tt, log (with_callouts h (remove_first calloutId (Callouts h))
                  (NextCalloutId h))
             (CalloutUnregisterById calloutId) STATUS_SUCCESS 0)
    else
      (tt, log h (CalloutUnregisterById calloutId)
             STATUS_FWP_CALLOUT_NOT_FOUND 0)).

Definition FwpmSubLayerAdd0 (engine : HANDLE) (subLayerKey : GUID)
    (weight : Z) : M NTSTATUS :=
  host_step (fun h =>
    let call := SubLayerAdd engine subLayerKey weight in
    let status := env call in
    if NT_SUCCESS status then
      (status, log (with_transaction h (InTransaction h)
                      (Pending h ++ [subLayerKey]) (Objects h))
                 call status 0)
    else (status, log h call status 0)).

Definition FwpmCalloutAdd0 (engine : HANDLE) (calloutKey : GUID)
    (applicableLayer : LAYER) : M NTSTATUS :=
  host_step (fun h =>
    let call := CalloutAdd engine calloutKey applicableLayer in
    let status := env call in
    if NT_SUCCESS status then
      (status, log (with_transaction h (InTransaction h)
                      (Pending h ++ [calloutKey]) (Objects h))
                 call status 0)
    else (status, log h call status 0)).

(** *** SecureHostRegisterCallouts *)

(** The code at label [cleanup]. *)
Definition cleanup (status : NTSTATUS) : M NTSTATUS :=
  c <- context ;;
  (if negb (EngineHandle c =? NULL) then
     FwpmEngineClose0 (EngineHandle c) ;;
     store (fun c => set_EngineHandle c NULL)
   else ret tt) ;;
  ret status.

(** Reads [Context->field] and passes it on. *)
Definition load {A : Type} (field : SECUREHOST_DRIVER_CONTEXT -> A) : M A :=
  c <- context ;; ret (field c).

Definition SecureHostRegisterCallouts : M NTSTATUS :=
  status <- FwpmEngineOpen0 (fun e c => set_EngineHandle c e) ;;
  if negb (NT_SUCCESS status) then cleanup status else
  engine <- load EngineHandle ;;
  status <- FwpmTransactionBegin0 engine ;;
  if negb (NT_SUCCESS status) then cleanup status else
  status <- FwpsCalloutRegister3 SECUREHOST_WFP_CALLOUT_V4_GUID
              (fun id c => set_CalloutIdV4 c id) ;;
  if negb (NT_SUCCESS status) then
    engine <- load EngineHandle ;; FwpmTransactionAbort0 engine ;;
    cleanup status
  else
  status <- FwpsCalloutRegister3 SECUREHOST_WFP_CALLOUT_V6_GUID
              (fun id c => set_CalloutIdV6 c id) ;;
  if negb (NT_SUCCESS status) then
    id4 <- load CalloutIdV4 ;; FwpsCalloutUnregisterById0 id4 ;;
    engine <- load EngineHandle ;; FwpmTransactionAbort0 engine ;;
    cleanup status
  else
  engine <- load EngineHandle ;;
  status <- FwpmSubLayerAdd0 engine SECUREHOST_WFP_SUBLAYER_GUID 0x8000 ;;
  if negb (NT_SUCCESS status) then
    id4 <- load CalloutIdV4 ;; FwpsCalloutUnregisterById0 id4 ;;
    id6 <- load CalloutIdV6 ;; FwpsCalloutUnregisterById0 id6 ;;
    engine <- load EngineHandle ;; FwpmTransactionAbort0 engine ;;
    cleanup status
  else
  engine <- load EngineHandle ;;
  status <- FwpmCalloutAdd0 engine SECUREHOST_WFP_CALLOUT_V4_GUID
              FWPM_LAYER_ALE_AUTH_CONNECT_V4 ;;
  if negb (NT_SUCCESS status) then
    id4 <- load CalloutIdV4 ;; FwpsCalloutUnregisterById0 id4 ;;
    id6 <- load CalloutIdV6 ;; FwpsCalloutUnregisterById0 id6 ;;
    engine <- load EngineHandle ;; FwpmTransactionAbort0 engine ;;
    cleanup status
  else
  engine <- load EngineHandle ;;
  status <- FwpmCalloutAdd0 engine SECUREHOST_WFP_CALLOUT_V6_GUID
              FWPM_LAYER_ALE_AUTH_CONNECT_V6 ;;
  if negb (NT_SUCCESS status) then
    id4 <- load CalloutIdV4 ;; FwpsCalloutUnregisterById0 id4 ;;
    id6 <- load CalloutIdV6 ;; FwpsCalloutUnregisterById0 id6 ;;
    engine <- load EngineHandle ;; FwpmTransactionAbort0 engine ;;
    cleanup status
  else
  engine <- load EngineHandle ;;
  status <- FwpmTransactionCommit0 engine ;;
  if negb (NT_SUCCESS status) then
    id4 <- load CalloutIdV4 ;; FwpsCalloutUnregisterById0 id4 ;;
    id6 <- load CalloutIdV6 ;; FwpsCalloutUnregisterById0 id6 ;;
    cleanup status
  else
  ret STATUS_SUCCESS.

(** *** SecureHostUnregisterCallouts *)

Definition SecureHostUnregisterCallouts : M NTSTATUS :=
  c <- context ;;
  (if negb (CalloutIdV4 c =? 0) then
     FwpsCalloutUnregisterById0 (CalloutIdV4 c)
   else ret tt) ;;
  c <- context ;;
  (if negb (CalloutIdV6 c =? 0) then
     FwpsCalloutUnregisterById0 (CalloutIdV6 c)
   else ret tt) ;;
  c <- context ;;
  (if negb (EngineHandle c =? NULL) then
     FwpmEngineClose0 (EngineHandle c) ;;
     store (fun c => set_EngineHandle c NULL)
   else ret tt) ;;
  ret STATUS_SUCCESS.

End Host.

(** *** SecureHostClassifyFn *)

(** [FWP_VALUE0]: a type tag and the storage of its union, as the bit
    pattern the union's narrower members are read from. *)
Record FWP_VALUE0 : Set := {
  type : Z;
  bits : Z
}.

Definition value_uint16 (v : FWP_VALUE0) : Z := bits v mod 2 ^ 16.
Definition value_uint8 (v : FWP_VALUE0) : Z := bits v mod 2 ^ 8.

Record FWPS_INCOMING_VALUES0 : Set := {
  layerId : Z;
  valueCount : Z;
  incomingValue : list FWP_VALUE0
}.

Record FWPS_INCOMING_METADATA_VALUES0 : Set := {
  currentMetadataValues : Z;
  metaProcessId : Z
}.

Record FWPS_FILTER3 : Set := {
  filterId : Z;
  flags : Z
}.

Record FWPS_CLASSIFY_OUT0 : Set := {
  actionType : Z;
  outContext : Z;
  outFilterId : Z;
  rights : Z;
  outFlags : Z
}.

Definition set_actionType (o : FWPS_CLASSIFY_OUT0) (v : Z) :=
  {| actionType := v; outContext := outContext o;
     outFilterId := outFilterId o; rights := rights o;
     outFlags := outFlags o |}.

Definition set_rights (o : FWPS_CLASSIFY_OUT0) (v : Z) :=
  {| actionType := actionType o; outContext := outContext o;
     outFilterId := outFilterId o; rights := v;
     outFlags := outFlags o |}.

(** Modelled from the spec: the host's action codes for the verdicts
    Block and Permit (fwptypes.h is not part of the repository):
    FWP_ACTION_FLAG_TERMINATING combined with 1 and with 2. *)
Definition FWP_ACTION_FLAG_TERMINATING : Z := 0x1000.
Definition FWP_ACTION_BLOCK : Z := Z.lor 0x1 FWP_ACTION_FLAG_TERMINATING.
Definition FWP_ACTION_PERMIT : Z := Z.lor 0x2 FWP_ACTION_FLAG_TERMINATING.

(** Modelled from the spec: the "write-permission bit" of the rights mask
    and the filter flag that asks to clear it (fwpstypes.h is not part of
    the repository); both are bit 0 of their word. *)
Definition FWPS_RIGHT_ACTION_WRITE : Z := 0x1.
Definition FWPS_FILTER_FLAG_CLEAR_ACTION_RIGHT : Z := 0x1.

(** The constants of the host headers whose values the driver's logic
    does not depend on: the metadata presence bit of the process id and
    the positions of the three fields in the layer's value array. *)
Class HostLayout : Set := {
  FWPS_METADATA_FIELD_PROCESS_ID : Z;
  FWPS_FIELD_ALE_AUTH_CONNECT_V4_IP_LOCAL_PORT : nat;
  FWPS_FIELD_ALE_AUTH_CONNECT_V4_IP_REMOTE_PORT : nat;
  FWPS_FIELD_ALE_AUTH_CONNECT_V4_DIRECTION : nat
}.

(** [FWPS_IS_METADATA_FIELD_PRESENT(metadataValues, metadataField)]. *)
Definition FWPS_IS_METADATA_FIELD_PRESENT
    (metadataValues : FWPS_INCOMING_METADATA_VALUES0) (metadataField : Z)
  : bool :=
  Z.land (currentMetadataValues metadataValues) metadataField
  =? metadataField.

(** The connection details the callback extracts and prints. *)
Record Connection : Set := {
  processId : Z;
  localPort : Z;
  remotePort : Z;
  direction : Z
}.

(** A 32-bit [x &= ~m], [m] an int constant: the complement is
    converted to the unsigned type of [x]. *)
Definition clear_bits32 (x m : Z) : Z := Z.land x (Z.lnot m mod 2 ^ 32).

Section Classify.

Context {layout : HostLayout}.

(** [SecureHostClassifyFn].  [Context] is the driver context in
    scope while the callback runs; the result is [None] when a read of
    [incomingValue] falls outside the array the host passed. *)
Definition SecureHostClassifyFn (Context : SECUREHOST_DRIVER_CONTEXT)
    (InFixedValues : FWPS_INCOMING_VALUES0)
    (InMetaValues : FWPS_INCOMING_METADATA_VALUES0)
    (Filter : FWPS_FILTER3) (ClassifyOut : FWPS_CLASSIFY_OUT0)
  : option (FWPS_CLASSIFY_OUT0 * Connection * SECUREHOST_DRIVER_CONTEXT) :=
  let processId0 :=
    if FWPS_IS_METADATA_FIELD_PRESENT InMetaValues
         FWPS_METADATA_FIELD_PROCESS_ID
    then metaProcessId InMetaValues mod 2 ^ 32
    else 0 in
  match nth_error (incomingValue InFixedValues)
          FWPS_FIELD_ALE_AUTH_CONNECT_V4_IP_LOCAL_PORT with
  | None => None
  | Some vLocal =>
  match nth_error (incomingValue InFixedValues)
          FWPS_FIELD_ALE_AUTH_CONNECT_V4_IP_REMOTE_PORT with
  | None => None
  | Some vRemote =>
  match nth_error (incomingValue InFixedValues)
          FWPS_FIELD_ALE_AUTH_CONNECT_V4_DIRECTION with
  | None => None
  | Some vDirection =>
      let ClassifyOut1 := set_actionType ClassifyOut FWP_ACTION_PERMIT in
      let printed :=
        {| processId := processId0;
           localPort := value_uint16 vLocal;
           remotePort := value_uint16 vRemote;
           direction := value_uint8 vDirection |} in
      let ClassifyOut2 :=
        if negb (Z.land (flags Filter) FWPS_FILTER_FLAG_CLEAR_ACTION_RIGHT
                 =? 0)
        then set_rights ClassifyOut1
               (clear_bits32 (rights ClassifyOut1) FWPS_RIGHT_ACTION_WRITE)
        else ClassifyOut1 in
      Some (ClassifyOut2, printed, Context)
  end end end.

(** An event as the host delivers it at this layer: the value array
    holds the three fields the callback reads. *)
Definition connect_event (InFixedValues : FWPS_INCOMING_VALUES0) : Prop :=
  (FWPS_FIELD_ALE_AUTH_CONNECT_V4_IP_LOCAL_PORT
     < length (incomingValue InFixedValues))%nat /\
  (FWPS_FIELD_ALE_AUTH_CONNECT_V4_IP_REMOTE_PORT
     < length (incomingValue InFixedValues))%nat /\
  (FWPS_FIELD_ALE_AUTH_CONNECT_V4_DIRECTION
     < length (incomingValue InFixedValues))%nat.

End Classify.

End Wfp.

(** * Specification vocabulary *)

Module DeviceSpec.
Import Nt Device.

(** A rule that grants the query, in the words of the specification:
    same resource class, subject 0 or the queried subject, verdict
    Allow. *)
Definition allow_rule_for (DeviceType0 : SECUREHOST_DEVICE_TYPE)
    (ProcessId0 : Z) (rule : SECUREHOST_DEVICE_POLICY) : Prop :=
  DeviceType rule = DeviceType0 /\
  (ProcessId rule = 0 \/ ProcessId rule = ProcessId0) /\
  Allowed rule <> 0.

(** Two rules that agree on everything but the process name. *)
Definition same_but_name (p q : SECUREHOST_DEVICE_POLICY) : Prop :=
  DeviceType p = DeviceType q /\
  ProcessId p = ProcessId q /\
  Allowed p = Allowed q.

(** Sample records and contexts. *)
Definition camera_allow_any : SECUREHOST_DEVICE_POLICY :=
  {| DeviceType := DeviceTypeCamera; ProcessId := 0; Allowed := 1;
     ProcessName := [] |}.

Definition camera_deny_any : SECUREHOST_DEVICE_POLICY :=
  {| DeviceType := DeviceTypeCamera; ProcessId := 0; Allowed := 0;
     ProcessName := [0x73; 0x76; 0x63] |}.

Definition usb_allow_4242 : SECUREHOST_DEVICE_POLICY :=
  {| DeviceType := DeviceTypeUSB; ProcessId := 4242; Allowed := 1;
     ProcessName := [] |}.

Definition camera_allow_named : SECUREHOST_DEVICE_POLICY :=
  {| DeviceType := DeviceTypeCamera; ProcessId := 0; Allowed := 1;
     ProcessName := [0x61; 0x62] |}.

(** The context of driver 1, lock released, at whose list entries the
    code reads [records]. *)
Definition context_reading (records : list SECUREHOST_DEVICE_POLICY)
  : DRIVER_CONTEXT :=
  set_PolicyList (DriverEntry_context 1) records.

Definition sample_store : DRIVER_CONTEXT :=
  context_reading
    [usb_allow_4242; camera_deny_any; camera_allow_any; camera_deny_any].

Definition sample_kernel : KERNEL :=
  {| Context := sample_store; Irql := 0; CurrentProcessId := 4242;
     Completed := [] |}.

Definition camera_device : DEVICE_CONTEXT :=
  {| Device := 10; Queue := 11; DevType := DeviceTypeCamera |}.

End DeviceSpec.

Module WfpSpec.
Import Nt Wfp.

(** A host call that went through. *)
Definition succeeded (ev : Event) : Prop := NT_SUCCESS (ev_status ev) = true.

(** What a stretch of the call record acquired: the runtime callouts it
    registered, the transactions it began and the engine sessions it
    opened, each in the order of the calls. *)
Definition registered_by (done : list Event) : list Z :=
  flat_map (fun ev =>
    match ev_call ev with
    | CalloutRegister _ => if NT_SUCCESS (ev_status ev) then [ev_out ev] else []
    | _ => []
    end) done.

Definition begun_by (done : list Event) : list HANDLE :=
  flat_map (fun ev =>
    match ev_call ev with
    | TransactionBegin e => if NT_SUCCESS (ev_status ev) then [e] else []
    | _ => []
    end) done.

Definition opened_by (done : list Event) : list HANDLE :=
  flat_map (fun ev =>
    match ev_call ev with
    | EngineOpen => if NT_SUCCESS (ev_status ev) then [ev_out ev] else []
    | _ => []
    end) done.

Definition is_commit (call : HostCall) : bool :=
  match call with
  | TransactionCommit _ => true
  | _ => false
  end.

(** The unwinding after a failed step, given the completed steps [done]:
    the callouts are unregistered in the order [order] puts them, then
    the transaction is aborted unless the failed step was the commit,
    then the engine session is closed. *)
Definition unwind_calls (order : list Z -> list Z) (done : list Event)
    (failed : HostCall) : list HostCall :=
  map CalloutUnregisterById (order (registered_by done)) ++
  (if is_commit failed then [] else map TransactionAbort (begun_by done)) ++
  map EngineClose (opened_by done).

(** Unwinding in reverse order of the completed steps: the callout
    registered last is unregistered first. *)
Definition reverse_order_unwind : list Event -> HostCall -> list HostCall :=
  unwind_calls (@rev Z).

(** Unwinding with the callouts taken in the order they were
    registered. *)
Definition registration_order_unwind
  : list Event -> HostCall -> list HostCall :=
  unwind_calls (fun ids => ids).

(** The activation from state [s] under host responses [env] failed and
    unwound by [plan]: the calls it added to the record are the completed
    steps, the failed one, whose status is returned, and then exactly the
    calls of the plan, each of which the host carried out. *)
Definition unwound_by (plan : list Event -> HostCall -> list HostCall)
    (env : HostCall -> NTSTATUS) (s : STATE) : Prop :=
  let r := SecureHostRegisterCallouts env s in
  exists done failed undo,
    Trace (fst (snd r)) = Trace (fst s) ++ done ++ failed :: undo /\
    Forall succeeded done /\
    NT_SUCCESS (ev_status failed) = false /\
    fst r = ev_status failed /\
    map ev_call undo = plan done (ev_call failed) /\
    Forall succeeded undo.

(** The events a run added to the call record. *)
Definition added (before after : STATE) : list Event :=
  skipn (length (Trace (fst before))) (Trace (fst after)).

(** An unregistration that hit an identifier with no live registration. *)
Definition stale_unregister (ev : Event) : bool :=
  match ev_call ev with
  | CalloutUnregisterById _ => negb (NT_SUCCESS (ev_status ev))
  | _ => false
  end.

(** Sample host, context and host responses. *)
Definition idle_host : HOST :=
  {| OpenEngines := []; InTransaction := false; Pending := [];
     Objects := []; Callouts := []; NextHandle := 7%positive;
     NextCalloutId := 3%positive; Trace := [] |}.

Definition loaded : STATE := (idle_host, DriverEntry_context 99).

Definition all_succeed : HostCall -> NTSTATUS := fun _ => STATUS_SUCCESS.

Definition sublayer_fails : HostCall -> NTSTATUS :=
  fun call =>
    match call with
    | SubLayerAdd _ _ _ => STATUS_ACCESS_DENIED
    | _ => STATUS_SUCCESS
    end.

(** The state in which both callouts are live: after a successful
    activation. *)
Definition active : STATE :=
  snd (SecureHostRegisterCallouts all_succeed loaded).

(** A layout to run the callback on. *)
Definition sample_layout : HostLayout :=
  {| FWPS_METADATA_FIELD_PROCESS_ID := 0x20;
     FWPS_FIELD_ALE_AUTH_CONNECT_V4_IP_LOCAL_PORT := 0;
     FWPS_FIELD_ALE_AUTH_CONNECT_V4_IP_REMOTE_PORT := 1;
     FWPS_FIELD_ALE_AUTH_CONNECT_V4_DIRECTION := 2 |}.

Definition sample_values : FWPS_INCOMING_VALUES0 :=
  {| layerId := 48; valueCount := 3;
     incomingValue :=
       [{| type := 2; bits := 443 |}; {| type := 2; bits := 51000 |};
        {| type := 1; bits := 1 |}] |}.

Definition meta_without_pid : FWPS_INCOMING_METADATA_VALUES0 :=
  {| currentMetadataValues := 0x08; metaProcessId := 100 |}.

Definition meta_with_pid : FWPS_INCOMING_METADATA_VALUES0 :=
  {| currentMetadataValues := 0x28; metaProcessId := 100 |}.

Definition filter_clearing : FWPS_FILTER3 := {| filterId := 5; flags := 0x1 |}.
Definition filter_plain : FWPS_FILTER3 := {| filterId := 5; flags := 0x0 |}.

Definition out_all_rights : FWPS_CLASSIFY_OUT0 :=
  {| actionType := FWP_ACTION_BLOCK; outContext := 0; outFilterId := 0;
     rights := 0x3; outFlags := 0 |}.

Definition block_rule : SECUREHOST_POLICY_RULE :=
  {| RuleId := 1; ProcessId := 100; Protocol := 6; LocalPort := 443;
     RemotePort := 51000; Action := FWP_ACTION_BLOCK; Enabled := 1 |}.

Definition context_with_block_rule : SECUREHOST_DRIVER_CONTEXT :=
  {| Driver := 99; EngineHandle := 7; CalloutIdV4 := 3; CalloutIdV6 := 4;
     FilterIdV4 := 0; FilterIdV6 := 0; RulesLock := 0;
     RulesList := [block_rule]; NextRuleId := 2 |}.

End WfpSpec.

(** * The load and unload paths *)

Module DeviceLifecycle.
Import Nt Device.

(** [DriverEntry] of the device driver.  [created] is the answer of
    [WdfDriverCreate] and [driver] the handle it gives; the driver
    context exists only once the driver object does. *)
Definition DriverEntry (created : NTSTATUS) (driver : Z)
  : NTSTATUS * option DRIVER_CONTEXT :=
  let status := created in
  if negb (NT_SUCCESS status) then (status, None)
  else (STATUS_SUCCESS, Some (DriverEntry_context driver)).

Inductive WDF_DEVICE_IO_TYPE : Set :=
| WdfDeviceIoUndefined
| WdfDeviceIoNeither
| WdfDeviceIoBuffered
| WdfDeviceIoDirect.

(** What the driver sets in the framework's [WDFDEVICE_INIT]. *)
Record WDFDEVICE_INIT : Set := {
  InitDeviceType : Z;
  InitCharacteristics : Z;
  InitIoType : WDF_DEVICE_IO_TYPE
}.

Definition FILE_DEVICE_SECURE_OPEN : Z := 0x100.

Definition WdfDeviceInitSetDeviceType (i : WDFDEVICE_INIT) (t : Z) :=
  {| InitDeviceType := t; InitCharacteristics := InitCharacteristics i;
     InitIoType := InitIoType i |}.

Definition WdfDeviceInitSetCharacteristics (i : WDFDEVICE_INIT) (c : Z)
    (orInValues : bool) :=
  {| InitDeviceType := InitDeviceType i;
     InitCharacteristics :=
       if orInValues then Z.lor (InitCharacteristics i) c else c;
     InitIoType := InitIoType i |}.

Definition WdfDeviceInitSetIoType (i : WDFDEVICE_INIT)
    (t : WDF_DEVICE_IO_TYPE) :=
  {| InitDeviceType := InitDeviceType i;
     InitCharacteristics := InitCharacteristics i; InitIoType := t |}.

(** [SecureHostDeviceAdd].  [deviceCreate] and [queueCreate] are the
    answers of [WdfDeviceCreate] and [WdfIoQueueCreate], each with the
    handle it gives.  The framework hands out the device context zeroed
    and clears [DeviceInit] when the device is created.  The result is
    the status, the settings made and the device context, if any. *)
Definition SecureHostDeviceAdd (DeviceInit : WDFDEVICE_INIT)
    (deviceCreate queueCreate : NTSTATUS * Z)
  : NTSTATUS * WDFDEVICE_INIT * option DEVICE_CONTEXT :=
  let DeviceInit := WdfDeviceInitSetDeviceType DeviceInit FILE_DEVICE_UNKNOWN in
  let DeviceInit :=
    WdfDeviceInitSetCharacteristics DeviceInit FILE_DEVICE_SECURE_OPEN true in
  let DeviceInit := WdfDeviceInitSetIoType DeviceInit WdfDeviceIoBuffered in
  let (status, device) := deviceCreate in
  if negb (NT_SUCCESS status) then (status, DeviceInit, None)
  else
    let deviceContext :=
      {| Device := device; Queue := 0;
         DevType := SecureHostIdentifyDevice 0 |} in
    let (status, queue) := queueCreate in
    if negb (NT_SUCCESS status) then (status, DeviceInit, Some deviceContext)
    else
      (STATUS_SUCCESS, DeviceInit,
       Some {| Device := Device deviceContext; Queue := queue;
               DevType := DevType deviceContext |}).

(** Sample framework answers. *)
Definition blank_init : WDFDEVICE_INIT :=
  {| InitDeviceType := 0; InitCharacteristics := 0x80;
     InitIoType := WdfDeviceIoUndefined |}.

Definition no_class_unknown_store : DRIVER_CONTEXT :=
  DeviceSpec.context_reading
    [ {| DeviceType := DeviceTypeCamera; ProcessId := 0; Allowed := 1;
         ProcessName := [] |};
      {| DeviceType := DeviceTypeUSB; ProcessId := 4242; Allowed := 1;
         ProcessName := [] |} ].

Definition unknown_allow_4242 : SECUREHOST_DEVICE_POLICY :=
  {| DeviceType := DeviceTypeUnknown; ProcessId := 4242; Allowed := 1;
     ProcessName := [] |}.

Definition class_unknown_store : DRIVER_CONTEXT :=
  DeviceSpec.context_reading
    (PolicyList no_class_unknown_store ++ [unknown_allow_4242]).

End DeviceLifecycle.

Module WfpLifecycle.
Import Nt Wfp.

Definition set_RulesList (c : SECUREHOST_DRIVER_CONTEXT)
    (l : list SECUREHOST_POLICY_RULE) :=
  {| Driver := Driver c; EngineHandle := EngineHandle c;
     CalloutIdV4 := CalloutIdV4 c; CalloutIdV6 := CalloutIdV6 c;
     FilterIdV4 := FilterIdV4 c; FilterIdV6 := FilterIdV6 c;
     RulesLock := RulesLock c; RulesList := l;
     NextRuleId := NextRuleId c |}.

(** [DriverEntry] of the network driver.  [created] is the answer of
    [WdfDriverCreate] and [driver] the handle it gives; [h] is the
    filter engine at load time.  The result is the status, the engine
    afterwards and the driver context, if the driver object exists. *)
Definition DriverEntry (env : HostCall -> NTSTATUS) (created : NTSTATUS)
    (driver : Z) (h : HOST)
  : NTSTATUS * HOST * option SECUREHOST_DRIVER_CONTEXT :=
  let status := created in
  if negb (NT_SUCCESS status) then (status, h, None)
  else
    let context := DriverEntry_context driver in
    let (status, s) := SecureHostRegisterCallouts env (h, context) in
    if negb (NT_SUCCESS status) then (status, fst s, Some (snd s))
    else (STATUS_SUCCESS, fst s, Some (snd s)).

(** The [while (!IsListEmpty(&context->RulesList))] loop of the unload
    callback; [freed] is the pool's record of freed rules, oldest
    first. *)
Fixpoint rules_cleanup_loop (entry : list SECUREHOST_POLICY_RULE)
    (context : SECUREHOST_DRIVER_CONTEXT)
    (freed : list SECUREHOST_POLICY_RULE)
  : SECUREHOST_DRIVER_CONTEXT * list SECUREHOST_POLICY_RULE :=
  match entry with
  | [] => (context, freed)
  | rule :: Flink =>
      rules_cleanup_loop Flink (set_RulesList context Flink) (freed ++ [rule])
  end.

(** [SecureHostEvtDriverUnload]. *)
Definition SecureHostEvtDriverUnload (s : STATE)
    (freed : list SECUREHOST_POLICY_RULE)
  : STATE * list SECUREHOST_POLICY_RULE :=
  let (_, s1) := SecureHostUnregisterCallouts s in
  let (context, freed1) :=
    rules_cleanup_loop (RulesList (snd s1)) (snd s1) freed in
  ((fst s1, context), freed1).

(** The fallible host calls of the activation, in the order the code
    makes them, for the engine handle [e] the host would give. *)
Definition registration_steps (e : HANDLE) : list HostCall :=
  [ EngineOpen;
    TransactionBegin e;
    CalloutRegister SECUREHOST_WFP_CALLOUT_V4_GUID;
    CalloutRegister SECUREHOST_WFP_CALLOUT_V6_GUID;
    SubLayerAdd e SECUREHOST_WFP_SUBLAYER_GUID 0x8000;
    CalloutAdd e SECUREHOST_WFP_CALLOUT_V4_GUID FWPM_LAYER_ALE_AUTH_CONNECT_V4;
    CalloutAdd e SECUREHOST_WFP_CALLOUT_V6_GUID FWPM_LAYER_ALE_AUTH_CONNECT_V6;
    TransactionCommit e ].

(** The host grants every step. *)
Definition all_steps_succeed (env : HostCall -> NTSTATUS) (h : HOST) : bool :=
  forallb (fun call => NT_SUCCESS (env call))
    (registration_steps (Z.pos (NextHandle h))).

(** The answer to the first step the host refuses, if any. *)
Definition first_refusal (env : HostCall -> NTSTATUS) (h : HOST)
  : option NTSTATUS :=
  find (fun status => negb (NT_SUCCESS status))
    (map env (registration_steps (Z.pos (NextHandle h)))).

(** Removal of the registration behind a retained identifier; the code
    skips identifier 0. *)
Definition drop_id (id : Z) (l : list Z) : list Z :=
  if id =? 0 then l else remove_first id l.

(** The host calls of a deactivation on context [c]. *)
Definition deactivation_calls (c : SECUREHOST_DRIVER_CONTEXT)
  : list HostCall :=
  (if CalloutIdV4 c =? 0 then []
   else [CalloutUnregisterById (CalloutIdV4 c)]) ++
  (if CalloutIdV6 c =? 0 then []
   else [CalloutUnregisterById (CalloutIdV6 c)]) ++
  (if EngineHandle c =? NULL then [] else [EngineClose (EngineHandle c)]).

(** Sample inputs. *)
Definition busy_host : HOST :=
  {| OpenEngines := [2]; InTransaction := false; Pending := [];
     Objects := []; Callouts := [1]; NextHandle := 7%positive;
     NextCalloutId := 3%positive; Trace := [] |}.

Definition commit_fails : HostCall -> NTSTATUS :=
  fun call =>
    match call with
    | TransactionCommit _ => STATUS_ACCESS_DENIED
    | _ => STATUS_SUCCESS
    end.

Definition two_rules : list SECUREHOST_POLICY_RULE :=
  [ {| RuleId := 1; ProcessId := 100; Protocol := 6; LocalPort := 443;
       RemotePort := 0; Action := FWP_ACTION_BLOCK; Enabled := 1 |};
    {| RuleId := 2; ProcessId := 0; Protocol := 17; LocalPort := 0;
       RemotePort := 53; Action := FWP_ACTION_PERMIT; Enabled := 0 |} ].

End WfpLifecycle.

(** * The policy list in memory *)

Module DeviceLayout.
Import Nt Device DeviceSpec.

(** Memory: the byte stored at each address. *)
Definition MEMORY : Type := Z -> Z.

(** Little-endian read and write of an [n]-byte value. *)
Fixpoint load_le (n : nat) (m : MEMORY) (a : Z) : Z :=
  match n with
  | O => 0
  | S k => m a mod 256 + 256 * load_le k m (a + 1)
  end.

Fixpoint store_le (n : nat) (m : MEMORY) (a v : Z) : MEMORY :=
  match n with
  | O => m
  | S k =>
      store_le k (fun x => if x =? a then v mod 256 else m x) (a + 1) (v / 256)
  end.

(** The structures of driver.c as the 64-bit compiler lays them out:
    pointers, handles and the spin lock take 8 bytes, the enumeration
    and UINT32 4, BOOLEAN 1 and WCHAR 2, each member at the next
    multiple of its own size.

    [struct _SECUREHOST_DEVICE_POLICY] has these four members and no
    LIST_ENTRY. *)
Definition offset_DeviceType : Z := 0.
Definition offset_ProcessId : Z := 4.
Definition offset_Allowed : Z := 8.
Definition offset_ProcessName : Z := 10.

(** [LIST_ENTRY]. *)
Definition offset_Flink : Z := 0.
Definition offset_Blink : Z := 8.

(** [struct _DRIVER_CONTEXT]. *)
Definition offset_Driver : Z := 0.
Definition offset_PolicyLock : Z := 8.
Definition offset_PolicyList : Z := 16.

(** [CONTAINING_RECORD(address, type, field)]: the address less the
    offset of [field]. *)
Definition CONTAINING_RECORD (address fieldOffset : Z) : Z :=
  address - fieldOffset.

(** The [for] loop of [SecureHostCheckDeviceAccess] on the chain in
    memory, from [entry] to the list head.  [fuel] bounds the number of
    loop tests; [None] means it did not suffice. *)
Fixpoint scan_entries (fuel : nat) (m : MEMORY) (ListHead entry : Z)
    (DeviceType0 ProcessId0 : Z) (status : NTSTATUS) : option NTSTATUS :=
  match fuel with
  | O => None
  | S fuel' =>
      if entry =? ListHead then Some status
      else
        let policy := CONTAINING_RECORD entry offset_DeviceType in
        if (load_le 4 m (policy + offset_DeviceType) =? DeviceType0) &&
           ((load_le 4 m (policy + offset_ProcessId) =? 0) ||
            (load_le 4 m (policy + offset_ProcessId) =? ProcessId0))
        then
          if negb (load_le 1 m (policy + offset_Allowed) =? 0) then
            Some STATUS_SUCCESS
          else
            scan_entries fuel' m ListHead (load_le 8 m (entry + offset_Flink))
              DeviceType0 ProcessId0 status
        else
          scan_entries fuel' m ListHead (load_le 8 m (entry + offset_Flink))
            DeviceType0 ProcessId0 status
  end.

(** [SecureHostCheckDeviceAccess(Context, DeviceType, ProcessId)] on the
    driver context at address [Context], run at IRQL [irql]; the device
    type is passed as the enumerator's value.  The result is the status
    with the memory and the IRQL the call leaves. *)
Definition SecureHostCheckDeviceAccess (fuel : nat) (m : MEMORY)
    (irql : KIRQL) (Context DeviceType0 ProcessId0 : Z)
  : option (NTSTATUS * MEMORY * KIRQL) :=
  let status := STATUS_ACCESS_DENIED in
  let oldIrql := irql in
  let m1 := store_le 8 m (Context + offset_PolicyLock) 1 in
  let ListHead := Context + offset_PolicyList in
  match scan_entries fuel m1 ListHead (load_le 8 m1 (ListHead + offset_Flink))
          DeviceType0 ProcessId0 status with
  | None => None
  | Some status' =>
      Some (status', store_le 8 m1 (Context + offset_PolicyLock) 0, oldIrql)
  end.

(** [InitializeListHead(ListHead)], as [DriverEntry] calls it. *)
Definition InitializeListHead (m : MEMORY) (ListHead : Z) : MEMORY :=
  let m := store_le 8 m (ListHead + offset_Flink) ListHead in
  store_le 8 m (ListHead + offset_Blink) ListHead.

(** Modelled from the spec: the host's [InsertTailList(ListHead, Entry)],
    by which the store's [insert] "appends rule to the tail of the
    ordered collection"; no function under src/ calls it. *)
Definition InsertTailList (m : MEMORY) (ListHead Entry : Z) : MEMORY :=
  let Blink := load_le 8 m (ListHead + offset_Blink) in
  let m := store_le 8 m (Entry + offset_Flink) ListHead in
  let m := store_le 8 m (Entry + offset_Blink) Blink in
  let m := store_le 8 m (Blink + offset_Flink) Entry in
  store_le 8 m (ListHead + offset_Blink) Entry.

(** Writes the name buffer, one WCHAR after the other. *)
Fixpoint store_name (m : MEMORY) (a : Z) (name : list Z) : MEMORY :=
  match name with
  | [] => m
  | ch :: rest => store_name (store_le 2 m a ch) (a + 2) rest
  end.

(** A writer fills in the policy at address [policy]. *)
Definition store_policy (m : MEMORY) (policy : Z)
    (rule : SECUREHOST_DEVICE_POLICY) : MEMORY :=
  let m := store_le 4 m (policy + offset_DeviceType)
             (device_type_value (DeviceType rule)) in
  let m := store_le 4 m (policy + offset_ProcessId) (ProcessId rule) in
  let m := store_le 1 m (policy + offset_Allowed) (Allowed rule) in
  store_name m (policy + offset_ProcessName) (ProcessName rule).

(** Modelled from the spec: the store's [insert(rule)]; no function
    under src/ links a policy into the list.  The rule is written to
    the block at [policy] and linked at the tail by the address both
    loops of driver.c take a record from:
    [CONTAINING_RECORD(entry, SECUREHOST_DEVICE_POLICY, DeviceType)]
    makes the link the address of the member [DeviceType]. *)
Definition insert (m : MEMORY) (Context policy : Z)
    (rule : SECUREHOST_DEVICE_POLICY) : MEMORY :=
  InsertTailList (store_policy m policy rule)
    (Context + offset_PolicyList) (policy + offset_DeviceType).

(** The enumerator with value [v], if any. *)
Definition decode_device_type (v : Z) : option SECUREHOST_DEVICE_TYPE :=
  if v =? 1 then Some DeviceTypeCamera
  else if v =? 2 then Some DeviceTypeMicrophone
  else if v =? 3 then Some DeviceTypeUSB
  else if v =? 4 then Some DeviceTypeBluetooth
  else if v =? 0 then Some DeviceTypeUnknown
  else None.

Definition load_name (m : MEMORY) (policy : Z) : list Z :=
  map (fun i => load_le 2 m (policy + offset_ProcessName + 2 * Z.of_nat i))
    (seq 0 256).

(** The record the code reads at address [policy], when its first
    member holds an enumerator. *)
Definition record_at (m : MEMORY) (policy : Z)
  : option SECUREHOST_DEVICE_POLICY :=
  match decode_device_type (load_le 4 m (policy + offset_DeviceType)) with
  | Some t =>
      Some {| DeviceType := t;
              ProcessId := load_le 4 m (policy + offset_ProcessId);
              Allowed := load_le 1 m (policy + offset_Allowed);
              ProcessName := load_name m policy |}
  | None => None
  end.

(** The records the code reads along the links of a chain.  A link
    whose first four bytes hold no enumerator gives none: the loop's
    first comparison fails there whichever enumerator is asked for. *)
Fixpoint records_at (m : MEMORY) (links : list Z)
  : list SECUREHOST_DEVICE_POLICY :=
  match links with
  | [] => []
  | link :: rest =>
      match record_at m (CONTAINING_RECORD link offset_DeviceType) with
      | Some r => r :: records_at m rest
      | None => records_at m rest
      end
  end.

(** The driver context of module [Device] that stands for the context
    at address [Context] whose chain passes [links]. *)
Definition context_at (m : MEMORY) (Context : Z) (links : list Z)
  : DRIVER_CONTEXT :=
  {| Driver := load_le 8 m (Context + offset_Driver);
     PolicyLock := load_le 8 m (Context + offset_PolicyLock);
     PolicyList := records_at m links |}.

(** [chain m ListHead entry links]: following [Flink] from [entry]
    passes the addresses [links] and then reaches the list head. *)
Inductive chain (m : MEMORY) (ListHead : Z) : Z -> list Z -> Prop :=
| chain_end : chain m ListHead ListHead []
| chain_link (entry : Z) (links : list Z) :
    entry <> ListHead ->
    chain m ListHead (load_le 8 m (entry + offset_Flink)) links ->
    chain m ListHead entry (entry :: links).

(** The driver context and one pool block, at kernel addresses. *)
Definition context_address : Z := 0xFFFFA00012340000.
Definition policy_address : Z := 0xFFFFA00056780000.

Definition blank : MEMORY := fun _ => 0.

(** The memory after [DriverEntry] initialised the list head. *)
Definition loaded_memory : MEMORY :=
  InitializeListHead blank (context_address + offset_PolicyList).

(** The memory after one rule, Allow for cameras and any process, was
    inserted. *)
Definition camera_rule_memory : MEMORY :=
  insert loaded_memory context_address policy_address camera_allow_any.

End DeviceLayout.

(** * Properties of the device driver *)

Module DeviceProofs.
Import Nt Device DeviceSpec.

Lemma device_type_eqb_eq a b : device_type_eqb a b = true <-> a = b.
Proof.
  destruct a, b; cbv; split; intro H; try reflexivity; discriminate H.
Qed.

Lemma policy_applies_spec p dt pid :
  policy_applies p dt pid = true <->
  DeviceType p = dt /\ (ProcessId p = 0 \/ ProcessId p = pid).
Proof.
  unfold policy_applies.
  rewrite andb_true_iff, orb_true_iff, device_type_eqb_eq, !Z.eqb_eq.
  reflexivity.
Qed.

Lemma policy_allowed_spec p : policy_allowed p = true <-> Allowed p <> 0.
Proof.
  unfold policy_allowed. rewrite negb_true_iff, Z.eqb_neq. reflexivity.
Qed.

Lemma allow_rule_for_spec p dt pid :
  allow_rule_for dt pid p <->
  policy_applies p dt pid = true /\ policy_allowed p = true.
Proof.
  unfold allow_rule_for.
  rewrite policy_applies_spec, policy_allowed_spec. tauto.
Qed.

(** One round of the loop on an entry that does not grant the query:
    the body runs on it and the scan goes on with the next entry. *)
Lemma policy_scan_skip p l dt pid st :
  ~ allow_rule_for dt pid p ->
  policy_scan (p :: l) dt pid st =
  (fst (policy_scan l dt pid st), p :: snd (policy_scan l dt pid st)).
Proof.
  intros Hn. simpl.
  destruct (policy_applies p dt pid) eqn:Ha; [| reflexivity].
  destruct (policy_allowed p) eqn:Hb; [| reflexivity].
  exfalso. apply Hn. apply allow_rule_for_spec. auto.
Qed.

(** One round of the loop on an entry that grants the query: [break]. *)
Lemma policy_scan_hit p l dt pid st :
  allow_rule_for dt pid p ->
  policy_scan (p :: l) dt pid st = (STATUS_SUCCESS, [p]).
Proof.
  intros H. apply allow_rule_for_spec in H. destruct H as [Ha Hb].
  simpl. rewrite Ha, Hb. reflexivity.
Qed.

Lemma allow_rule_for_dec dt pid p :
  {allow_rule_for dt pid p} + {~ allow_rule_for dt pid p}.
Proof.
  destruct (policy_applies p dt pid && policy_allowed p) eqn:E.
  - left. apply allow_rule_for_spec. apply andb_true_iff. exact E.
  - right. intros H. apply allow_rule_for_spec in H.
    apply andb_true_iff in H. congruence.
Qed.

Lemma policy_scan_status l dt pid st :
  fst (policy_scan l dt pid st) = STATUS_SUCCESS \/
  fst (policy_scan l dt pid st) = st.
Proof.
  induction l as [| p l IH]; [right; reflexivity |].
  destruct (allow_rule_for_dec dt pid p) as [H | H].
  - rewrite policy_scan_hit by exact H. left; reflexivity.
  - rewrite policy_scan_skip by exact H. exact IH.
Qed.

Lemma check_access_status c irql dt pid :
  fst (SecureHostCheckDeviceAccess c irql dt pid) =
  fst (policy_scan (PolicyList c) dt pid STATUS_ACCESS_DENIED).
Proof. reflexivity. Qed.

Lemma same_but_name_tests p q dt pid :
  same_but_name p q ->
  policy_applies p dt pid = policy_applies q dt pid /\
  policy_allowed p = policy_allowed q.
Proof.
  intros (Ht & Hp & Ha).
  unfold policy_applies, policy_allowed. rewrite Ht, Hp, Ha. auto.
Qed.

Lemma policy_scan_same_but_name l1 l2 dt pid st :
  Forall2 same_but_name l1 l2 ->
  fst (policy_scan l1 dt pid st) = fst (policy_scan l2 dt pid st).
Proof.
  induction 1 as [| p q l1 l2 Hpq _ IH]; [reflexivity |].
  destruct (same_but_name_tests p q dt pid Hpq) as [Ea Eb].
  simpl. rewrite Ea, Eb.
  destruct (policy_applies q dt pid), (policy_allowed q); simpl; auto.
Qed.

Lemma cleanup_loop_drains entry c freed :
  PolicyList c = entry ->
  cleanup_loop entry c freed = (set_PolicyList c [], freed ++ entry).
Proof.
  revert c freed. induction entry as [| p entry IH]; intros c freed E.
  - destruct c as [d k l]. simpl in E. subst l.
    rewrite app_nil_r. reflexivity.
  - simpl. rewrite IH by reflexivity. rewrite <- app_assoc. reflexivity.
Qed.

(** C9.  Rewriting the process-name buffers of the stored rules changes
    no answer of the lookup. *)
Theorem process_name_has_no_influence
    (c1 c2 : DRIVER_CONTEXT) (irql : KIRQL)
    (dt : SECUREHOST_DEVICE_TYPE) (pid : Z) :
  Forall2 same_but_name (PolicyList c1) (PolicyList c2) ->
  fst (SecureHostCheckDeviceAccess c1 irql dt pid) =
  fst (SecureHostCheckDeviceAccess c2 irql dt pid).
Proof.
  intros H. rewrite !check_access_status.
  apply policy_scan_same_but_name. exact H.
Qed.

(** C10.  The lookup leaves the driver context as it found it: the
    policy list and the driver handle are untouched, the lock it took is
    released again and the IRQL is back at its old level, so a context
    whose lock was free at entry comes out unchanged as a whole. *)
Theorem check_access_is_a_pure_read
    (c : DRIVER_CONTEXT) (irql : KIRQL)
    (dt : SECUREHOST_DEVICE_TYPE) (pid : Z) :
  let after := snd (SecureHostCheckDeviceAccess c irql dt pid) in
  PolicyList (fst after) = PolicyList c /\
  Driver (fst after) = Driver c /\
  PolicyLock (fst after) = 0 /\
  snd after = irql /\
  (PolicyLock c = 0 -> fst after = c).
Proof.
  destruct c as [d k l]. simpl.
  repeat split. intros ->. reflexivity.
Qed.

(** C6.  The teardown loop frees every rule and leaves the list empty,
    and a lookup on the drained store is refused whatever the query. *)
Theorem cleanup_leaves_default_deny
    (c : DRIVER_CONTEXT) (freed : list SECUREHOST_DEVICE_POLICY)
    (irql : KIRQL) (dt : SECUREHOST_DEVICE_TYPE) (pid : Z) :
  let drained := SecureHostDriverCleanup c freed in
  PolicyList (fst drained) = [] /\
  snd drained = freed ++ PolicyList c /\
  fst (SecureHostCheckDeviceAccess (fst drained) irql dt pid)
  = STATUS_ACCESS_DENIED /\
  NT_SUCCESS STATUS_ACCESS_DENIED = false.
Proof.
  unfold SecureHostDriverCleanup.
  rewrite cleanup_loop_drains by reflexivity. simpl. repeat split.
Qed.

Lemma ioctl_check_access_value : IOCTL_SECUREHOST_CHECK_ACCESS = 0x222000.
Proof. reflexivity. Qed.

(** C5.  Every request is completed exactly once.  For the check-access
    code the completion status is success when the matcher allows and
    access-denied when it does not; for any other code it is the
    invalid-device-request status, which differs from both. *)
Theorem io_device_control_completes_once
    (k : KERNEL) (deviceContext : DEVICE_CONTEXT) (Request code : Z) :
  let verdict :=
    fst (SecureHostCheckDeviceAccess (Context k) (Irql k)
           (DevType deviceContext) (HandleToUlong (CurrentProcessId k))) in
  exists status,
    Completed (SecureHostIoDeviceControl k deviceContext Request code)
    = Completed k ++ [(Request, status)] /\
    (code = IOCTL_SECUREHOST_CHECK_ACCESS ->
     verdict = STATUS_SUCCESS -> status = STATUS_SUCCESS) /\
    (code = IOCTL_SECUREHOST_CHECK_ACCESS ->
     verdict <> STATUS_SUCCESS -> status = STATUS_ACCESS_DENIED) /\
    (code <> IOCTL_SECUREHOST_CHECK_ACCESS ->
     status = STATUS_INVALID_DEVICE_REQUEST) /\
    STATUS_INVALID_DEVICE_REQUEST <> STATUS_ACCESS_DENIED /\
    STATUS_INVALID_DEVICE_REQUEST <> STATUS_SUCCESS /\
    STATUS_ACCESS_DENIED <> STATUS_SUCCESS.
Proof.
  cbv zeta. unfold SecureHostIoDeviceControl.
  destruct (Z.eqb_spec code IOCTL_SECUREHOST_CHECK_ACCESS) as [E | E].
  - pose proof (policy_scan_status (PolicyList (Context k))
                  (DevType deviceContext)
                  (HandleToUlong (CurrentProcessId k))
                  STATUS_ACCESS_DENIED) as Hs.
    rewrite <- (check_access_status (Context k) (Irql k)) in Hs.
    destruct (SecureHostCheckDeviceAccess (Context k) (Irql k)
                (DevType deviceContext) (HandleToUlong (CurrentProcessId k)))
      as [status0 [c irql]].
    simpl fst in *. destruct Hs as [-> | ->].
    + exists STATUS_SUCCESS. unfold WdfRequestComplete. simpl.
      repeat split; try tauto; try discriminate.
    + exists STATUS_ACCESS_DENIED. unfold WdfRequestComplete. simpl.
      repeat split; try tauto; try discriminate.
  - exists STATUS_INVALID_DEVICE_REQUEST. simpl.
    repeat split; try tauto; try discriminate.
Qed.

Lemma process_name_has_no_influence_witness :
  Forall2 same_but_name [camera_deny_any; camera_allow_any]
    [camera_deny_any; camera_allow_named] /\
  fst (SecureHostCheckDeviceAccess
         (context_reading [camera_deny_any; camera_allow_any])
         0 DeviceTypeCamera 7)
  = fst (SecureHostCheckDeviceAccess
           (context_reading [camera_deny_any; camera_allow_named])
           0 DeviceTypeCamera 7).
Proof.
  assert (H : Forall2 same_but_name [camera_deny_any; camera_allow_any]
                [camera_deny_any; camera_allow_named])
    by (repeat constructor).
  split; [exact H |].
  exact (process_name_has_no_influence
           (context_reading [camera_deny_any; camera_allow_any])
           (context_reading [camera_deny_any; camera_allow_named])
           0 DeviceTypeCamera 7 H).
Defined.

Lemma check_access_is_a_pure_read_witness :
  PolicyLock sample_store = 0 /\
  fst (snd (SecureHostCheckDeviceAccess sample_store 0 DeviceTypeCamera 4242))
  = sample_store.
Proof.
  split; [reflexivity |].
  pose proof (check_access_is_a_pure_read sample_store 0 DeviceTypeCamera 4242)
    as H.
  cbv zeta in H. destruct H as (_ & _ & _ & _ & H).
  apply H. reflexivity.
Defined.

Lemma io_device_control_completes_once_witness :
  Completed (SecureHostIoDeviceControl sample_kernel camera_device 77
               IOCTL_SECUREHOST_CHECK_ACCESS)
  = [(77, STATUS_SUCCESS)] /\
  Completed (SecureHostIoDeviceControl sample_kernel camera_device 78 0x222004)
  = [(78, STATUS_INVALID_DEVICE_REQUEST)].
Proof.
  split.
  - pose proof (io_device_control_completes_once sample_kernel camera_device
                  77 IOCTL_SECUREHOST_CHECK_ACCESS) as H.
    cbv zeta in H. destruct H as (status & Hc & Hallow & _).
    etransitivity; [exact Hc |].
    rewrite (Hallow eq_refl eq_refl). reflexivity.
  - pose proof (io_device_control_completes_once sample_kernel camera_device
                  78 0x222004) as H.
    cbv zeta in H. destruct H as (status & Hc & _ & _ & Hother & _).
    etransitivity; [exact Hc |].
    rewrite Hother; [reflexivity | discriminate].
Defined.

End DeviceProofs.

(** * The policy lookup on the list in memory *)

Module DeviceLayoutProofs.
Import Nt Device DeviceSpec.
Import DeviceLayout.

Lemma decode_device_type_value v t :
  decode_device_type v = Some t -> v = device_type_value t.
Proof.
  unfold decode_device_type.
  destruct (Z.eqb_spec v 1); [intros E; injection E as <-; assumption |].
  destruct (Z.eqb_spec v 2); [intros E; injection E as <-; assumption |].
  destruct (Z.eqb_spec v 3); [intros E; injection E as <-; assumption |].
  destruct (Z.eqb_spec v 4); [intros E; injection E as <-; assumption |].
  destruct (Z.eqb_spec v 0); [intros E; injection E as <-; assumption |].
  discriminate.
Qed.

Lemma decode_device_type_none v t :
  decode_device_type v = None -> (v =? device_type_value t) = false.
Proof.
  unfold decode_device_type. intros E.
  destruct (Z.eqb_spec v 1); [discriminate |].
  destruct (Z.eqb_spec v 2); [discriminate |].
  destruct (Z.eqb_spec v 3); [discriminate |].
  destruct (Z.eqb_spec v 4); [discriminate |].
  destruct (Z.eqb_spec v 0); [discriminate |].
  apply Z.eqb_neq. destruct t; simpl; assumption.
Qed.

(** The tests of the loop body at an address where the code reads the
    record [r] are the tests of [policy_scan] on [r]. *)
Lemma record_at_tests m policy r dt pid :
  record_at m policy = Some r ->
  ((load_le 4 m (policy + offset_DeviceType) =? device_type_value dt) &&
   ((load_le 4 m (policy + offset_ProcessId) =? 0) ||
    (load_le 4 m (policy + offset_ProcessId) =? pid))
   = policy_applies r dt pid) /\
  negb (load_le 1 m (policy + offset_Allowed) =? 0) = policy_allowed r.
Proof.
  unfold record_at.
  destruct (decode_device_type (load_le 4 m (policy + offset_DeviceType)))
    as [t |] eqn:Et; [| discriminate].
  intros E. injection E as <-.
  apply decode_device_type_value in Et.
  unfold policy_applies, policy_allowed, device_type_eqb.
  cbn [DeviceType ProcessId Allowed].
  rewrite Et. split; reflexivity.
Qed.

(** Where the first member holds no enumerator the outer test fails. *)
Lemma record_at_none_test m policy dt :
  record_at m policy = None ->
  (load_le 4 m (policy + offset_DeviceType) =? device_type_value dt) = false.
Proof.
  unfold record_at.
  destruct (decode_device_type (load_le 4 m (policy + offset_DeviceType)))
    as [t |] eqn:Et; [discriminate |].
  intros _. apply decode_device_type_none. exact Et.
Qed.

(** The loop on a chain in memory is [policy_scan] on the records the
    code reads at its links; a fuel above the length of the chain
    suffices. *)
Lemma scan_entries_is_policy_scan m ListHead entry links dt pid st :
  chain m ListHead entry links ->
  forall fuel, (length links < fuel)%nat ->
  scan_entries fuel m ListHead entry (device_type_value dt) pid st
  = Some (fst (policy_scan (records_at m links) dt pid st)).
Proof.
  induction 1 as [| entry links Hne Hc IH]; intros fuel Hf.
  - destruct fuel; [simpl in Hf; lia |].
    simpl. rewrite Z.eqb_refl. reflexivity.
  - destruct fuel; [simpl in Hf; lia |].
    cbn [scan_entries records_at].
    destruct (Z.eqb_spec entry ListHead) as [E | _]; [contradiction |].
    cbv zeta.
    destruct (record_at m (CONTAINING_RECORD entry offset_DeviceType))
      as [r |] eqn:Hrec.
    + destruct (record_at_tests _ _ _ dt pid Hrec) as [Ea Eb].
      rewrite Ea, Eb. cbn [policy_scan].
      rewrite (IH fuel) by (simpl in Hf; lia).
      destruct (policy_applies r dt pid), (policy_allowed r); reflexivity.
    + rewrite (record_at_none_test _ _ dt Hrec). cbn [andb].
      apply IH. simpl in Hf. lia.
Qed.

(** C1 fails on the code.  A rule Allow for cameras and any process is
    written to a pool block and inserted at the tail of the empty list.
    The policy structure has no LIST_ENTRY and the link is taken at its
    first member, so linking writes Flink and Blink over the rule's
    first sixteen bytes: where the rule said Camera, 0, Allow, the loop
    reads the two halves of the list head's address and its low byte,
    which is no record of any class.  The chain holds the one block,
    and the lookup for a camera and process 4242 ends with access
    denied, though the rule as written grants the query.  The same
    holds whatever class, subject and verdict the inserted rule has and
    whatever class and process are asked for. *)
Theorem stored_allow_rule_is_refused :
  let ListHead := context_address + offset_PolicyList in
  let written := store_policy loaded_memory policy_address camera_allow_any in
  allow_rule_for DeviceTypeCamera 4242 camera_allow_any /\
  (load_le 4 written (policy_address + offset_DeviceType),
   load_le 4 written (policy_address + offset_ProcessId),
   load_le 1 written (policy_address + offset_Allowed))
  = (device_type_value DeviceTypeCamera, 0, 1) /\
  chain camera_rule_memory ListHead
    (load_le 8 camera_rule_memory (ListHead + offset_Flink))
    [policy_address + offset_DeviceType] /\
  (load_le 4 camera_rule_memory (policy_address + offset_DeviceType),
   load_le 4 camera_rule_memory (policy_address + offset_ProcessId),
   load_le 1 camera_rule_memory (policy_address + offset_Allowed))
  = (ListHead mod 2 ^ 32, ListHead / 2 ^ 32, ListHead mod 2 ^ 8) /\
  record_at camera_rule_memory policy_address = None /\
  (forall fuel,
     option_map (fun r => fst (fst r))
       (DeviceLayout.SecureHostCheckDeviceAccess (S (S fuel))
          camera_rule_memory 0 context_address
          (device_type_value DeviceTypeCamera) 4242)
     = Some STATUS_ACCESS_DENIED) /\
  (forall class subject verdict dt pid fuel,
     option_map (fun r => fst (fst r))
       (DeviceLayout.SecureHostCheckDeviceAccess (S (S fuel))
          (insert loaded_memory context_address policy_address
             {| DeviceType := class; ProcessId := subject;
                Allowed := verdict; ProcessName := [] |})
          0 context_address (device_type_value dt) pid)
     = Some STATUS_ACCESS_DENIED).
Proof.
  cbv zeta.
  split; [repeat split; [left; reflexivity | discriminate] |].
  split; [vm_compute; reflexivity |].
  split.
  { assert (E1 : load_le 8 camera_rule_memory
                   (context_address + offset_PolicyList + offset_Flink)
                 = policy_address + offset_DeviceType)
      by (vm_compute; reflexivity).
    assert (E2 : load_le 8 camera_rule_memory
                   (policy_address + offset_DeviceType + offset_Flink)
                 = context_address + offset_PolicyList)
      by (vm_compute; reflexivity).
    rewrite E1. apply chain_link; [vm_compute; discriminate |].
    rewrite E2. apply chain_end. }
  split; [vm_compute; reflexivity |].
  split; [vm_compute; reflexivity |].
  split; [intros fuel; vm_compute; reflexivity |].
  intros class subject verdict dt pid fuel.
  destruct dt; vm_compute; reflexivity.
Qed.

(** X16.  The lookup in memory against the lookup of module [Device].
    When the chain hanging off the list head, as the loop finds it with
    the lock taken, passes [links] and returns to the head, the call
    ends within any fuel above their number; its status is the one
    [Device.SecureHostCheckDeviceAccess] gives on the records read at
    those links, the memory it leaves differs from the one it found in
    the lock word alone, which is released, and the IRQL is the
    caller's. *)
Theorem memory_lookup_reads_records (m : MEMORY) (irql : KIRQL)
    (Context : Z) (links : list Z) (dt : SECUREHOST_DEVICE_TYPE) (pid : Z)
    (fuel : nat) :
  let locked := store_le 8 m (Context + offset_PolicyLock) 1 in
  let ListHead := Context + offset_PolicyList in
  chain locked ListHead (load_le 8 locked (ListHead + offset_Flink)) links ->
  (length links < fuel)%nat ->
  DeviceLayout.SecureHostCheckDeviceAccess fuel m irql Context
    (device_type_value dt) pid
  = Some (fst (Device.SecureHostCheckDeviceAccess
                 (context_at locked Context links) irql dt pid),
          store_le 8 locked (Context + offset_PolicyLock) 0,
          irql).
Proof.
  cbv zeta. intros Hc Hf.
  unfold DeviceLayout.SecureHostCheckDeviceAccess.
  rewrite (scan_entries_is_policy_scan _ _ _ _ dt pid STATUS_ACCESS_DENIED
             Hc fuel Hf).
  reflexivity.
Qed.

Lemma memory_lookup_reads_records_witness :
  DeviceLayout.SecureHostCheckDeviceAccess 2 camera_rule_memory 0
    context_address (device_type_value DeviceTypeCamera) 4242
  = Some (fst (Device.SecureHostCheckDeviceAccess
                 (context_at
                    (store_le 8 camera_rule_memory
                       (context_address + offset_PolicyLock) 1)
                    context_address [policy_address + offset_DeviceType])
                 0 DeviceTypeCamera 4242),
          store_le 8
            (store_le 8 camera_rule_memory
               (context_address + offset_PolicyLock) 1)
            (context_address + offset_PolicyLock) 0,
          0).
Proof.
  apply (memory_lookup_reads_records camera_rule_memory 0 context_address
           [policy_address + offset_DeviceType] DeviceTypeCamera 4242 2).
  - set (locked := store_le 8 camera_rule_memory
                     (context_address + offset_PolicyLock) 1).
    assert (E1 : load_le 8 locked
                   (context_address + offset_PolicyList + offset_Flink)
                 = policy_address + offset_DeviceType)
      by (vm_compute; reflexivity).
    assert (E2 : load_le 8 locked
                   (policy_address + offset_DeviceType + offset_Flink)
                 = context_address + offset_PolicyList)
      by (vm_compute; reflexivity).
    rewrite E1. apply chain_link; [vm_compute; discriminate |].
    rewrite E2. apply chain_end.
  - simpl. lia.
Defined.

End DeviceLayoutProofs.

(** * Properties of the network driver *)

Module WfpProofs.
Import Nt Wfp WfpSpec.

Lemma pos_succ_neqb n : (Z.pos n =? Z.pos (Pos.succ n)) = false.
Proof. apply Z.eqb_neq. lia. Qed.

Lemma memb_cons x y l : memb x (y :: l) = (x =? y) || memb x l.
Proof. reflexivity. Qed.

Lemma remove_first_cons x y l :
  remove_first x (y :: l) = if x =? y then l else y :: remove_first x l.
Proof. reflexivity. Qed.

Lemma memb_head x l : memb x (x :: l) = true.
Proof. rewrite memb_cons, Z.eqb_refl. reflexivity. Qed.

Lemma memb_next n l :
  memb (Z.pos n) (Z.pos (Pos.succ n) :: Z.pos n :: l) = true.
Proof. rewrite memb_cons, memb_head. apply orb_true_r. Qed.

Lemma remove_first_head x l : remove_first x (x :: l) = l.
Proof. rewrite remove_first_cons, Z.eqb_refl. reflexivity. Qed.

Lemma remove_first_next n l :
  remove_first (Z.pos n) (Z.pos (Pos.succ n) :: Z.pos n :: l)
  = Z.pos (Pos.succ n) :: l.
Proof.
  rewrite remove_first_cons, pos_succ_neqb, remove_first_head. reflexivity.
Qed.

(** A call record splits at its first failed call in one way only. *)
Lemma first_failure_unique (done done' undo undo' : list Event)
    (f f' : Event) :
  done ++ f :: undo = done' ++ f' :: undo' ->
  Forall succeeded done -> NT_SUCCESS (ev_status f) = false ->
  Forall succeeded done' -> NT_SUCCESS (ev_status f') = false ->
  done = done' /\ f = f' /\ undo = undo'.
Proof.
  revert done'. induction done as [| x done IH]; intros [| y done'] E Hd Hf Hd' Hf'.
  - simpl in E. injection E as -> ->. auto.
  - simpl in E. injection E as -> _. inversion Hd' as [| ? ? Hy _].
    unfold succeeded in Hy. congruence.
  - simpl in E. injection E as -> _. inversion Hd as [| ? ? Hx _].
    unfold succeeded in Hx. congruence.
  - simpl in E. injection E as -> E.
    inversion Hd; subst. inversion Hd'; subst.
    destruct (IH done' E) as (-> & -> & ->); auto.
Qed.

Ltac unfold_host :=
  unfold SecureHostRegisterCallouts, SecureHostUnregisterCallouts, cleanup,
    load, context, store, ret, bind,
    FwpmEngineOpen0, FwpmEngineClose0, FwpmTransactionBegin0,
    FwpmTransactionAbort0, FwpmTransactionCommit0, FwpsCalloutRegister3,
    FwpsCalloutUnregisterById0, FwpmSubLayerAdd0, FwpmCalloutAdd0, host_step.

Ltac use_answers :=
  repeat match goal with E : NT_SUCCESS _ = _ |- _ => rewrite E end.

(** Splits the added calls after the first [n] of them and checks the
    split against the answers the host gave. *)
Ltac split_at n :=
  match goal with
  | |- exists done failed undo,
         ?t ++ ?L = ?t ++ done ++ failed :: undo /\ _ =>
      exists (firstn n L),
        (nth n L {| ev_call := EngineOpen; ev_status := 0; ev_out := 0 |}),
        (skipn (S n) L);
      cbn;
      split; [reflexivity |];
      split; [repeat constructor; assumption |];
      split; [assumption |];
      split; [reflexivity |];
      split;
        [ unfold registration_order_unwind, unwind_calls, registered_by,
            begun_by, opened_by; cbn;
          repeat (progress (use_answers; cbn)); reflexivity |];
      repeat constructor
  end.

#[local] Arguments memb : simpl never.
#[local] Arguments remove_first : simpl never.

(** Carries the host's answers and the registry facts into the goal. *)
Ltac settle Hc :=
  repeat (progress (use_answers;
                    rewrite ?Hc, ?memb_head, ?memb_next, ?remove_first_head,
                      ?remove_first_next; cbn)).

(** Closes the branch in which the step just examined failed. *)
Ltac unwound Hc :=
  settle Hc; intros _; rewrite <- ?app_assoc; cbn;
  (split; [| repeat split]);
  first [ split_at 0%nat | split_at 1%nat | split_at 2%nat
        | split_at 3%nat | split_at 4%nat | split_at 5%nat
        | split_at 6%nat | split_at 7%nat ].

(** C3, as the code has it.  When a step of the activation fails on a
    context whose engine handle is NULL, the status of that step is
    returned; the callouts registered so far are unregistered in the
    order they were registered (IPv4, then IPv6), then the transaction,
    if begun, is aborted unless the failed step was the commit, then the
    engine session, if opened, is closed.  The host carries out each of
    these calls, no callout of this call stays registered, no session of
    this call stays open, and the context's engine handle is NULL. *)
Theorem register_failure_unwinds
    (env : HostCall -> NTSTATUS) (h : HOST) (c : SECUREHOST_DRIVER_CONTEXT) :
  EngineHandle c = NULL ->
  NT_SUCCESS (fst (SecureHostRegisterCallouts env (h, c))) = false ->
  let r := SecureHostRegisterCallouts env (h, c) in
  unwound_by registration_order_unwind env (h, c) /\
  Callouts (fst (snd r)) = Callouts h /\
  OpenEngines (fst (snd r)) = OpenEngines h /\
  EngineHandle (snd (snd r)) = NULL.
Proof.
  intros Hc. unfold unwound_by. unfold_host. cbn.
  set (e := Z.pos (NextHandle h)).
  destruct (NT_SUCCESS (env EngineOpen)) eqn:E1; [| unwound Hc].
  settle Hc.
  destruct (NT_SUCCESS (env (TransactionBegin e))) eqn:E2; [| unwound Hc].
  settle Hc.
  destruct (NT_SUCCESS
              (env (CalloutRegister SECUREHOST_WFP_CALLOUT_V4_GUID))) eqn:E3;
    [| unwound Hc].
  settle Hc.
  destruct (NT_SUCCESS
              (env (CalloutRegister SECUREHOST_WFP_CALLOUT_V6_GUID))) eqn:E4;
    [| unwound Hc].
  settle Hc.
  destruct (NT_SUCCESS
              (env (SubLayerAdd e SECUREHOST_WFP_SUBLAYER_GUID 0x8000)))
    eqn:E5; [| unwound Hc].
  settle Hc.
  destruct (NT_SUCCESS
              (env (CalloutAdd e SECUREHOST_WFP_CALLOUT_V4_GUID
                      FWPM_LAYER_ALE_AUTH_CONNECT_V4))) eqn:E6;
    [| unwound Hc].
  settle Hc.
  destruct (NT_SUCCESS
              (env (CalloutAdd e SECUREHOST_WFP_CALLOUT_V6_GUID
                      FWPM_LAYER_ALE_AUTH_CONNECT_V6))) eqn:E7;
    [| unwound Hc].
  settle Hc.
  destruct (NT_SUCCESS (env (TransactionCommit e))) eqn:E8; [| unwound Hc].
  settle Hc. intros H; discriminate H.
Qed.

Lemma register_failure_unwinds_witness :
  EngineHandle (snd loaded) = NULL /\
  NT_SUCCESS (fst (SecureHostRegisterCallouts sublayer_fails loaded)) = false /\
  unwound_by registration_order_unwind sublayer_fails loaded /\
  Callouts (fst (snd (SecureHostRegisterCallouts sublayer_fails loaded))) = [] /\
  OpenEngines (fst (snd (SecureHostRegisterCallouts sublayer_fails loaded)))
  = [] /\
  EngineHandle (snd (snd (SecureHostRegisterCallouts sublayer_fails loaded)))
  = NULL.
Proof.
  split; [reflexivity |]. split; [reflexivity |].
  apply (register_failure_unwinds sublayer_fails idle_host
           (DriverEntry_context 99)); reflexivity.
Defined.

(** C3, as stated, fails: when adding the sublayer is refused, the
    callout registered first (identifier 3) is unregistered before the
    one registered second (identifier 4), so the completed steps are not
    undone in the reverse of their order. *)
Lemma register_unwind_not_in_reverse_order :
  NT_SUCCESS (fst (SecureHostRegisterCallouts sublayer_fails loaded)) = false /\
  ~ unwound_by reverse_order_unwind sublayer_fails loaded.
Proof.
  split; [reflexivity |].
  intros (done & failed & undo & Ht & Hd & Hf & _ & Hplan & _).
  remember (Trace (fst (snd (SecureHostRegisterCallouts sublayer_fails loaded))))
    as L eqn:EL.
  vm_compute in EL. subst L. simpl in Ht.
  match type of Ht with
  | [?e1; ?e2; ?e3; ?e4; ?e5; ?u1; ?u2; ?u3; ?u4] = _ =>
      change ([e1; e2; e3; e4] ++ e5 :: [u1; u2; u3; u4]
              = done ++ failed :: undo) in Ht
  end.
  apply first_failure_unique in Ht; auto.
  - destruct Ht as (<- & <- & <-). vm_compute in Hplan. discriminate Hplan.
  - repeat constructor.
Qed.

Lemma unregister_by_id_context id s :
  snd (snd (FwpsCalloutUnregisterById0 id s)) = snd s.
Proof.
  unfold FwpsCalloutUnregisterById0, host_step.
  destruct (memb id (Callouts (fst s))); reflexivity.
Qed.

Lemma guarded_unregister_context (b : bool) id (s : STATE) :
  snd (snd ((if b then FwpsCalloutUnregisterById0 id else ret tt) s)) = snd s.
Proof. destruct b; [apply unregister_by_id_context | reflexivity]. Qed.

(** Deactivation closes the engine session and clears the handle, but
    leaves both callout identifiers in the context as they were. *)
Lemma unregister_keeps_identifiers (s : STATE) :
  let after := snd (SecureHostUnregisterCallouts s) in
  CalloutIdV4 (snd after) = CalloutIdV4 (snd s) /\
  CalloutIdV6 (snd after) = CalloutIdV6 (snd s) /\
  EngineHandle (snd after) = NULL.
Proof.
  unfold SecureHostUnregisterCallouts, bind, context. cbv beta iota.
  pose proof (guarded_unregister_context (negb (CalloutIdV4 (snd s) =? 0))
                (CalloutIdV4 (snd s)) s) as H1.
  match goal with
  | |- context [(if ?b then ?f else ?g) s] =>
      destruct ((if b then f else g) s) as [u1 s1]
  end.
  simpl in H1. cbv beta iota.
  pose proof (guarded_unregister_context (negb (CalloutIdV6 (snd s1) =? 0))
                (CalloutIdV6 (snd s1)) s1) as H2.
  match goal with
  | |- context [(if ?b then ?f else ?g) s1] =>
      destruct ((if b then f else g) s1) as [u2 s2]
  end.
  simpl in H2. rewrite H1 in H2. cbv beta iota.
  destruct (EngineHandle (snd s2) =? NULL) eqn:En; cbn.
  - rewrite H2. apply Z.eqb_eq in En. rewrite H2 in En. auto.
  - rewrite H2. auto.
Qed.

(** C4 fails on the code.  From the state a successful activation
    leaves, the first deactivation removes both callouts and closes the
    session; the second one closes nothing twice, but it calls the
    host's unregistration again for identifiers 3 and 4, which by then
    denote no registration. *)
Theorem deactivate_twice_unregisters_again :
  let once := snd (SecureHostUnregisterCallouts active) in
  let twice := snd (SecureHostUnregisterCallouts once) in
  Callouts (fst active) = [4; 3] /\
  Callouts (fst once) = [] /\
  EngineHandle (snd once) = NULL /\
  added once twice =
    [ {| ev_call := CalloutUnregisterById 3;
         ev_status := STATUS_FWP_CALLOUT_NOT_FOUND; ev_out := 0 |};
      {| ev_call := CalloutUnregisterById 4;
         ev_status := STATUS_FWP_CALLOUT_NOT_FOUND; ev_out := 0 |} ] /\
  existsb stale_unregister (added once twice) = true.
Proof. vm_compute. repeat split. Qed.

(** *** The classify callback *)

Section ClassifyProofs.

Context {layout : HostLayout}.

Lemma nth_error_in_range {A : Type} (l : list A) (n : nat) :
  (n < length l)%nat -> exists x, nth_error l n = Some x.
Proof.
  intros H. destruct (nth_error l n) as [x |] eqn:E; [exists x; reflexivity |].
  apply nth_error_None in E. lia.
Qed.

Lemma connect_event_fields (fixed : FWPS_INCOMING_VALUES0) :
  connect_event fixed ->
  exists vl vr vd,
    nth_error (incomingValue fixed)
      FWPS_FIELD_ALE_AUTH_CONNECT_V4_IP_LOCAL_PORT = Some vl /\
    nth_error (incomingValue fixed)
      FWPS_FIELD_ALE_AUTH_CONNECT_V4_IP_REMOTE_PORT = Some vr /\
    nth_error (incomingValue fixed)
      FWPS_FIELD_ALE_AUTH_CONNECT_V4_DIRECTION = Some vd.
Proof.
  intros (Hl & Hr & Hd).
  destruct (nth_error_in_range _ _ Hl) as [vl El].
  destruct (nth_error_in_range _ _ Hr) as [vr Er].
  destruct (nth_error_in_range _ _ Hd) as [vd Ed].
  exists vl, vr, vd. auto.
Qed.

(** The outputs of the callback once the three fields are read. *)
Lemma classify_result (Ctx : SECUREHOST_DRIVER_CONTEXT)
    (fixed : FWPS_INCOMING_VALUES0) (meta : FWPS_INCOMING_METADATA_VALUES0)
    (filter : FWPS_FILTER3) (out : FWPS_CLASSIFY_OUT0)
    (vl vr vd : FWP_VALUE0) :
  nth_error (incomingValue fixed)
    FWPS_FIELD_ALE_AUTH_CONNECT_V4_IP_LOCAL_PORT = Some vl ->
  nth_error (incomingValue fixed)
    FWPS_FIELD_ALE_AUTH_CONNECT_V4_IP_REMOTE_PORT = Some vr ->
  nth_error (incomingValue fixed)
    FWPS_FIELD_ALE_AUTH_CONNECT_V4_DIRECTION = Some vd ->
  SecureHostClassifyFn Ctx fixed meta filter out =
  Some
    ((if negb (Z.land (flags filter) FWPS_FILTER_FLAG_CLEAR_ACTION_RIGHT
               =? 0)
      then set_rights (set_actionType out FWP_ACTION_PERMIT)
             (clear_bits32 (rights out) FWPS_RIGHT_ACTION_WRITE)
      else set_actionType out FWP_ACTION_PERMIT),
     {| processId :=
          if FWPS_IS_METADATA_FIELD_PRESENT meta
               FWPS_METADATA_FIELD_PROCESS_ID
          then metaProcessId meta mod 2 ^ 32 else 0;
        localPort := value_uint16 vl;
        remotePort := value_uint16 vr;
        direction := value_uint8 vd |},
     Ctx).
Proof.
  intros El Er Ed. unfold SecureHostClassifyFn.
  rewrite El, Er, Ed. reflexivity.
Qed.

Lemma clear_mask_value :
  Z.lnot FWPS_RIGHT_ACTION_WRITE mod 2 ^ 32 = 0xFFFFFFFE.
Proof. reflexivity. Qed.

Lemma clear_bits32_drops_write (x : Z) :
  Z.land (clear_bits32 x FWPS_RIGHT_ACTION_WRITE) FWPS_RIGHT_ACTION_WRITE = 0.
Proof.
  unfold clear_bits32. rewrite clear_mask_value, <- Z.land_assoc.
  change (Z.land 0xFFFFFFFE FWPS_RIGHT_ACTION_WRITE) with 0.
  apply Z.land_0_r.
Qed.

Lemma clear_bits32_keeps_others (x i : Z) :
  0 <= x < 2 ^ 32 ->
  Z.testbit FWPS_RIGHT_ACTION_WRITE i = false ->
  Z.testbit (clear_bits32 x FWPS_RIGHT_ACTION_WRITE) i = Z.testbit x i.
Proof.
  intros Hx Hi. unfold clear_bits32. rewrite Z.land_spec.
  destruct (Z.ltb_spec i 0) as [Hneg | Hnn].
  - rewrite !Z.testbit_neg_r by exact Hneg. reflexivity.
  - destruct (Z.ltb_spec i 32) as [Hlow | Hhigh].
    + rewrite Z.mod_pow2_bits_low by lia.
      rewrite Z.lnot_spec by exact Hnn. rewrite Hi. apply andb_true_r.
    + rewrite Z.mod_pow2_bits_high by lia. rewrite andb_false_r.
      rewrite <- (Z.mod_small x (2 ^ 32)) by exact Hx.
      rewrite Z.mod_pow2_bits_high by lia. reflexivity.
Qed.

(** C2.  On every connect event the callback sets the action to Permit,
    whatever the process, the ports, the direction and the filter; with
    any other driver context, and so any other rules list, in scope it
    produces the same outputs. *)
Theorem classify_always_permits
    (Ctx Ctx' : SECUREHOST_DRIVER_CONTEXT)
    (fixed : FWPS_INCOMING_VALUES0) (meta : FWPS_INCOMING_METADATA_VALUES0)
    (filter : FWPS_FILTER3) (out : FWPS_CLASSIFY_OUT0) :
  connect_event fixed ->
  exists out' printed,
    SecureHostClassifyFn Ctx fixed meta filter out
    = Some (out', printed, Ctx) /\
    actionType out' = FWP_ACTION_PERMIT /\
    SecureHostClassifyFn Ctx' fixed meta filter out
    = Some (out', printed, Ctx').
Proof.
  intros Hev.
  destruct (connect_event_fields fixed Hev) as (vl & vr & vd & El & Er & Ed).
  rewrite (classify_result Ctx fixed meta filter out vl vr vd El Er Ed).
  rewrite (classify_result Ctx' fixed meta filter out vl vr vd El Er Ed).
  eexists _, _. split; [reflexivity |]. split; [| reflexivity].
  destruct (negb _); reflexivity.
Qed.

(** C8.  When the metadata does not carry the process id, the callback
    takes it as zero, reads the ports and the direction from the value
    array, and returns with the action set to Permit. *)
Theorem classify_absent_process_id
    (Ctx : SECUREHOST_DRIVER_CONTEXT)
    (fixed : FWPS_INCOMING_VALUES0) (meta : FWPS_INCOMING_METADATA_VALUES0)
    (filter : FWPS_FILTER3) (out : FWPS_CLASSIFY_OUT0) :
  connect_event fixed ->
  FWPS_IS_METADATA_FIELD_PRESENT meta FWPS_METADATA_FIELD_PROCESS_ID = false ->
  exists out' printed,
    SecureHostClassifyFn Ctx fixed meta filter out
    = Some (out', printed, Ctx) /\
    processId printed = 0 /\
    actionType out' = FWP_ACTION_PERMIT.
Proof.
  intros Hev Habsent.
  destruct (connect_event_fields fixed Hev) as (vl & vr & vd & El & Er & Ed).
  rewrite (classify_result Ctx fixed meta filter out vl vr vd El Er Ed).
  rewrite Habsent.
  eexists _, _. split; [reflexivity |]. split; [reflexivity |].
  destruct (negb _); reflexivity.
Qed.

(** C7.  Of two calls that differ only in the filter's clear-action-right
    flag, the flagged one returns the rights mask with the write bit
    cleared and every other bit as it was, and the other one returns the
    rights mask as it was; the remaining outputs agree. *)
Theorem classify_clears_write_right
    (Ctx : SECUREHOST_DRIVER_CONTEXT)
    (fixed : FWPS_INCOMING_VALUES0) (meta : FWPS_INCOMING_METADATA_VALUES0)
    (flagged plain : FWPS_FILTER3) (out : FWPS_CLASSIFY_OUT0) :
  connect_event fixed ->
  0 <= rights out < 2 ^ 32 ->
  Z.land (flags flagged) FWPS_FILTER_FLAG_CLEAR_ACTION_RIGHT <> 0 ->
  Z.land (flags plain) FWPS_FILTER_FLAG_CLEAR_ACTION_RIGHT = 0 ->
  exists out1 out2 printed,
    SecureHostClassifyFn Ctx fixed meta flagged out
    = Some (out1, printed, Ctx) /\
    SecureHostClassifyFn Ctx fixed meta plain out
    = Some (out2, printed, Ctx) /\
    Z.land (rights out1) FWPS_RIGHT_ACTION_WRITE = 0 /\
    (forall i, Z.testbit FWPS_RIGHT_ACTION_WRITE i = false ->
               Z.testbit (rights out1) i = Z.testbit (rights out) i) /\
    rights out2 = rights out /\
    out1 = set_rights out2 (rights out1).
Proof.
  intros Hev Hr Hset Hunset.
  destruct (connect_event_fields fixed Hev) as (vl & vr & vd & El & Er & Ed).
  rewrite (classify_result Ctx fixed meta flagged out vl vr vd El Er Ed).
  rewrite (classify_result Ctx fixed meta plain out vl vr vd El Er Ed).
  apply Z.eqb_neq in Hset. apply Z.eqb_eq in Hunset.
  rewrite Hset, Hunset. simpl negb. cbv iota.
  eexists _, _, _. split; [reflexivity |]. split; [reflexivity |].
  simpl rights.
  split; [apply clear_bits32_drops_write |].
  split; [intros i Hi; apply clear_bits32_keeps_others; assumption |].
  split; reflexivity.
Qed.

End ClassifyProofs.

Lemma classify_always_permits_witness :
  @connect_event sample_layout sample_values /\
  exists out' printed,
    @SecureHostClassifyFn sample_layout context_with_block_rule
      sample_values meta_with_pid filter_plain out_all_rights
    = Some (out', printed, context_with_block_rule) /\
    actionType out' = FWP_ACTION_PERMIT /\
    @SecureHostClassifyFn sample_layout (DriverEntry_context 99)
      sample_values meta_with_pid filter_plain out_all_rights
    = Some (out', printed, DriverEntry_context 99).
Proof.
  assert (H : @connect_event sample_layout sample_values)
    by (repeat split; simpl; lia).
  split; [exact H |].
  exact (@classify_always_permits sample_layout context_with_block_rule
           (DriverEntry_context 99) sample_values meta_with_pid filter_plain
           out_all_rights H).
Defined.

Lemma classify_absent_process_id_witness :
  @connect_event sample_layout sample_values /\
  FWPS_IS_METADATA_FIELD_PRESENT meta_without_pid
    (@FWPS_METADATA_FIELD_PROCESS_ID sample_layout) = false /\
  exists out' printed,
    @SecureHostClassifyFn sample_layout context_with_block_rule
      sample_values meta_without_pid filter_plain out_all_rights
    = Some (out', printed, context_with_block_rule) /\
    processId printed = 0 /\
    actionType out' = FWP_ACTION_PERMIT.
Proof.
  assert (H : @connect_event sample_layout sample_values)
    by (repeat split; simpl; lia).
  split; [exact H |]. split; [reflexivity |].
  exact (@classify_absent_process_id sample_layout context_with_block_rule
           sample_values meta_without_pid filter_plain out_all_rights
           H eq_refl).
Defined.

Lemma classify_clears_write_right_witness :
  @connect_event sample_layout sample_values /\
  0 <= rights out_all_rights < 2 ^ 32 /\
  Z.land (flags filter_clearing) FWPS_FILTER_FLAG_CLEAR_ACTION_RIGHT <> 0 /\
  Z.land (flags filter_plain) FWPS_FILTER_FLAG_CLEAR_ACTION_RIGHT = 0 /\
  exists out1 out2 printed,
    @SecureHostClassifyFn sample_layout context_with_block_rule
      sample_values meta_with_pid filter_clearing out_all_rights
    = Some (out1, printed, context_with_block_rule) /\
    @SecureHostClassifyFn sample_layout context_with_block_rule
      sample_values meta_with_pid filter_plain out_all_rights
    = Some (out2, printed, context_with_block_rule) /\
    Z.land (rights out1) FWPS_RIGHT_ACTION_WRITE = 0 /\
    (forall i, Z.testbit FWPS_RIGHT_ACTION_WRITE i = false ->
               Z.testbit (rights out1) i = Z.testbit (rights out_all_rights) i)
    /\
    rights out2 = rights out_all_rights /\
    out1 = set_rights out2 (rights out1).
Proof.
  assert (H : @connect_event sample_layout sample_values)
    by (repeat split; simpl; lia).
  assert (Hr : 0 <= rights out_all_rights < 2 ^ 32) by (simpl; lia).
  assert (Hs : Z.land (flags filter_clearing)
                 FWPS_FILTER_FLAG_CLEAR_ACTION_RIGHT <> 0)
    by (simpl; discriminate).
  split; [exact H |]. split; [exact Hr |]. split; [exact Hs |].
  split; [reflexivity |].
  exact (@classify_clears_write_right sample_layout context_with_block_rule
           sample_values meta_with_pid filter_clearing filter_plain
           out_all_rights H Hr Hs eq_refl).
Defined.

End WfpProofs.

(** * Further properties of the device driver *)

Module DeviceExtra.
Import Nt Device DeviceSpec DeviceLifecycle DeviceProofs.

(** X4.  The dispatcher leaves the policy list, the driver handle, the
    IRQL and the caller as they were; for a code other than
    check-access it does not touch the driver context at all, and for
    check-access it hands back a context whose lock is released. *)
Theorem io_device_control_frame
    (k : KERNEL) (deviceContext : DEVICE_CONTEXT) (Request code : Z) :
  let k' := SecureHostIoDeviceControl k deviceContext Request code in
  PolicyList (Context k') = PolicyList (Context k) /\
  Driver (Context k') = Driver (Context k) /\
  Irql k' = Irql k /\
  CurrentProcessId k' = CurrentProcessId k /\
  (code <> IOCTL_SECUREHOST_CHECK_ACCESS -> Context k' = Context k) /\
  (code = IOCTL_SECUREHOST_CHECK_ACCESS -> PolicyLock (Context k') = 0).
Proof.
  unfold SecureHostIoDeviceControl.
  destruct (Z.eqb_spec code IOCTL_SECUREHOST_CHECK_ACCESS) as [E | E].
  - unfold SecureHostCheckDeviceAccess. cbn.
    repeat split. intros H. contradiction.
  - cbn. repeat split. intros H. contradiction.
Qed.

Lemma cleanup_drains c freed :
  SecureHostDriverCleanup c freed
  = (set_PolicyList c [], freed ++ PolicyList c).
Proof. apply cleanup_loop_drains. reflexivity. Qed.

(** X5.  The teardown keeps the driver handle and the lock word, and a
    second teardown frees nothing more and changes nothing. *)
Theorem cleanup_is_idempotent
    (c : DRIVER_CONTEXT) (freed : list SECUREHOST_DEVICE_POLICY) :
  let once := SecureHostDriverCleanup c freed in
  Driver (fst once) = Driver c /\
  PolicyLock (fst once) = PolicyLock c /\
  SecureHostDriverCleanup (fst once) (snd once) = once.
Proof.
  cbv zeta. rewrite cleanup_drains. simpl.
  rewrite cleanup_drains. simpl. rewrite app_nil_r. repeat split.
Qed.

(** X6.  Adding a device succeeds exactly when the framework creates
    both the device and its queue; otherwise the status of the first
    refused call is returned, a refused device leaves no device context,
    and a refused queue leaves the context without a queue. *)
Theorem device_add_outcome
    (DeviceInit : WDFDEVICE_INIT) (deviceCreate queueCreate : NTSTATUS * Z) :
  let r := SecureHostDeviceAdd DeviceInit deviceCreate queueCreate in
  let status := fst (fst r) in
  (NT_SUCCESS status = true <->
   NT_SUCCESS (fst deviceCreate) = true /\
   NT_SUCCESS (fst queueCreate) = true) /\
  (NT_SUCCESS status = true -> status = STATUS_SUCCESS) /\
  (NT_SUCCESS (fst deviceCreate) = false ->
   status = fst deviceCreate /\ snd r = None) /\
  (NT_SUCCESS (fst deviceCreate) = true ->
   NT_SUCCESS (fst queueCreate) = false ->
   status = fst queueCreate /\
   exists d, snd r = Some d /\ Device d = snd deviceCreate /\ Queue d = 0) /\
  (NT_SUCCESS status = true ->
   exists d, snd r = Some d /\ Device d = snd deviceCreate /\
             Queue d = snd queueCreate).
Proof.
  destruct deviceCreate as [s1 device], queueCreate as [s2 queue].
  unfold SecureHostDeviceAdd. cbn [fst snd].
  destruct (NT_SUCCESS s1) eqn:E1; cbn [negb];
    [destruct (NT_SUCCESS s2) eqn:E2; cbn [negb] |]; cbn [fst snd];
    rewrite ?E1, ?E2.
  - split; [tauto |]. split; [reflexivity |].
    split; [intros H0; discriminate H0 |].
    split; [intros _ H0; discriminate H0 |].
    intros _. eexists. repeat split.
  - split; [intuition discriminate |].
    split; [intros H0; discriminate H0 |].
    split; [intros H0; discriminate H0 |].
    split; [| intros H0; discriminate H0].
    intros _ _. split; [reflexivity |]. eexists. repeat split.
  - split; [intuition discriminate |].
    split; [intros H0; discriminate H0 |].
    split; [intros _; split; reflexivity |].
    split; intros H0; discriminate H0.
Qed.

(** X7.  Whatever device is added, its context carries the class
    "unknown", so a check-access request on it is decided by the lookup
    for that class and the caller: it is completed with success when
    that lookup succeeds and with access-denied otherwise. *)
Theorem added_device_is_checked_as_unknown
    (DeviceInit : WDFDEVICE_INIT) (deviceCreate queueCreate : NTSTATUS * Z)
    (d : DEVICE_CONTEXT) (k : KERNEL) (Request : Z) :
  snd (SecureHostDeviceAdd DeviceInit deviceCreate queueCreate) = Some d ->
  let k' :=
    SecureHostIoDeviceControl k d Request IOCTL_SECUREHOST_CHECK_ACCESS in
  let verdict :=
    fst (SecureHostCheckDeviceAccess (Context k) (Irql k) DeviceTypeUnknown
           (HandleToUlong (CurrentProcessId k))) in
  DevType d = DeviceTypeUnknown /\
  (verdict = STATUS_SUCCESS ->
   Completed k' = Completed k ++ [(Request, STATUS_SUCCESS)]) /\
  (verdict <> STATUS_SUCCESS ->
   Completed k' = Completed k ++ [(Request, STATUS_ACCESS_DENIED)]).
Proof.
  intros Hd k' verdict.
  assert (Hu : DevType d = DeviceTypeUnknown).
  { destruct deviceCreate as [s1 device], queueCreate as [s2 queue].
    unfold SecureHostDeviceAdd in Hd.
    destruct (NT_SUCCESS s1); cbn [negb] in Hd; [| discriminate Hd].
    destruct (NT_SUCCESS s2); cbn [negb snd] in Hd;
      injection Hd as <-; reflexivity. }
  split; [exact Hu |].
  unfold k', verdict, SecureHostIoDeviceControl.
  rewrite Z.eqb_refl, Hu.
  pose proof (policy_scan_status (PolicyList (Context k)) DeviceTypeUnknown
                (HandleToUlong (CurrentProcessId k)) STATUS_ACCESS_DENIED)
    as Hs.
  rewrite <- (check_access_status (Context k) (Irql k)) in Hs.
  destruct (SecureHostCheckDeviceAccess (Context k) (Irql k)
              DeviceTypeUnknown (HandleToUlong (CurrentProcessId k)))
    as [status0 [c irql]].
  simpl fst in *. destruct Hs as [-> | ->]; cbn.
  - split; [reflexivity |]. intros Hn. exfalso. apply Hn. reflexivity.
  - split; [| reflexivity]. intros Hy. discriminate Hy.
Qed.

(** X8.  A failed load returns the status of [WdfDriverCreate] and
    makes no driver context; after a successful load the store is
    empty, so every check-access request, on any device and from any
    process, is completed with access-denied, and a teardown frees
    nothing. *)
Theorem fresh_driver_denies_everything
    (created : NTSTATUS) (driver : Z) :
  let r := DriverEntry created driver in
  (NT_SUCCESS created = false -> r = (created, None)) /\
  (NT_SUCCESS created = true ->
   exists c,
     r = (STATUS_SUCCESS, Some c) /\
     (forall k deviceContext Request,
        Context k = c ->
        Completed (SecureHostIoDeviceControl k deviceContext Request
                     IOCTL_SECUREHOST_CHECK_ACCESS)
        = Completed k ++ [(Request, STATUS_ACCESS_DENIED)]) /\
     (forall freed, snd (SecureHostDriverCleanup c freed) = freed)).
Proof.
  unfold DriverEntry. cbv zeta. split; intros E; rewrite E; cbn [negb].
  - reflexivity.
  - exists (DriverEntry_context driver). split; [reflexivity |]. split.
    + intros k deviceContext Request Ek.
      unfold SecureHostIoDeviceControl. rewrite Z.eqb_refl, Ek. reflexivity.
    + intros freed. rewrite cleanup_drains. simpl. apply app_nil_r.
Qed.

Lemma io_device_control_frame_witness :
  0x222004 <> IOCTL_SECUREHOST_CHECK_ACCESS /\
  Context (SecureHostIoDeviceControl sample_kernel camera_device 78 0x222004)
  = Context sample_kernel /\
  PolicyLock
    (Context (SecureHostIoDeviceControl sample_kernel camera_device 77
                IOCTL_SECUREHOST_CHECK_ACCESS)) = 0.
Proof.
  assert (H : 0x222004 <> IOCTL_SECUREHOST_CHECK_ACCESS) by discriminate.
  split; [exact H |]. split.
  - pose proof (io_device_control_frame sample_kernel camera_device 78
                  0x222004) as F.
    cbv zeta in F. destruct F as (_ & _ & _ & _ & F & _). exact (F H).
  - pose proof (io_device_control_frame sample_kernel camera_device 77
                  IOCTL_SECUREHOST_CHECK_ACCESS) as F.
    cbv zeta in F. destruct F as (_ & _ & _ & _ & _ & F). exact (F eq_refl).
Defined.

Lemma device_add_outcome_witness :
  NT_SUCCESS STATUS_SUCCESS = true /\
  NT_SUCCESS STATUS_ACCESS_DENIED = false /\
  fst (fst (SecureHostDeviceAdd blank_init (STATUS_SUCCESS, 10)
              (STATUS_ACCESS_DENIED, 11))) = STATUS_ACCESS_DENIED /\
  exists d,
    snd (SecureHostDeviceAdd blank_init (STATUS_SUCCESS, 10)
           (STATUS_ACCESS_DENIED, 11)) = Some d /\
    Device d = 10 /\ Queue d = 0.
Proof.
  split; [reflexivity |]. split; [reflexivity |].
  pose proof (device_add_outcome blank_init (STATUS_SUCCESS, 10)
                (STATUS_ACCESS_DENIED, 11)) as H.
  cbv zeta in H. destruct H as (_ & _ & _ & H & _).
  exact (H eq_refl eq_refl).
Defined.

Lemma added_device_is_checked_as_unknown_witness :
  snd (SecureHostDeviceAdd blank_init (STATUS_SUCCESS, 10) (STATUS_SUCCESS, 11))
  = Some {| Device := 10; Queue := 11; DevType := DeviceTypeUnknown |} /\
  Completed
    (SecureHostIoDeviceControl
       {| Context := no_class_unknown_store; Irql := 0;
          CurrentProcessId := 4242; Completed := [] |}
       {| Device := 10; Queue := 11; DevType := DeviceTypeUnknown |}
       77 IOCTL_SECUREHOST_CHECK_ACCESS)
  = [(77, STATUS_ACCESS_DENIED)] /\
  Completed
    (SecureHostIoDeviceControl
       {| Context := class_unknown_store; Irql := 0;
          CurrentProcessId := 4242; Completed := [] |}
       {| Device := 10; Queue := 11; DevType := DeviceTypeUnknown |}
       77 IOCTL_SECUREHOST_CHECK_ACCESS)
  = [(77, STATUS_SUCCESS)].
Proof.
  assert (Hd : snd (SecureHostDeviceAdd blank_init (STATUS_SUCCESS, 10)
                      (STATUS_SUCCESS, 11))
               = Some {| Device := 10; Queue := 11;
                         DevType := DeviceTypeUnknown |}) by reflexivity.
  split; [exact Hd |]. split.
  - pose proof (added_device_is_checked_as_unknown blank_init
                  (STATUS_SUCCESS, 10) (STATUS_SUCCESS, 11) _
                  {| Context := no_class_unknown_store; Irql := 0;
                     CurrentProcessId := 4242; Completed := [] |} 77 Hd) as H.
    cbv zeta in H. destruct H as (_ & _ & H). apply H. discriminate.
  - pose proof (added_device_is_checked_as_unknown blank_init
                  (STATUS_SUCCESS, 10) (STATUS_SUCCESS, 11) _
                  {| Context := class_unknown_store; Irql := 0;
          CurrentProcessId := 4242; Completed := [] |}
                  77 Hd) as H.
    cbv zeta in H. destruct H as (_ & H & _). apply H. reflexivity.
Defined.

Lemma fresh_driver_denies_everything_witness :
  NT_SUCCESS STATUS_SUCCESS = true /\
  exists c,
    DriverEntry STATUS_SUCCESS 5 = (STATUS_SUCCESS, Some c) /\
    (forall k deviceContext Request,
       Context k = c ->
       Completed (SecureHostIoDeviceControl k deviceContext Request
                    IOCTL_SECUREHOST_CHECK_ACCESS)
       = Completed k ++ [(Request, STATUS_ACCESS_DENIED)]) /\
    (forall freed, snd (SecureHostDriverCleanup c freed) = freed).
Proof.
  split; [reflexivity |].
  pose proof (fresh_driver_denies_everything STATUS_SUCCESS 5) as H.
  cbv zeta in H. destruct H as (_ & H). exact (H eq_refl).
Defined.

End DeviceExtra.

(** * Further properties of the network driver *)

Module WfpExtra.
Import Nt Wfp WfpSpec WfpLifecycle WfpProofs.

#[local] Arguments memb : simpl never.
#[local] Arguments remove_first : simpl never.

Lemma pos_eqb_0 p : (Z.pos p =? 0) = false.
Proof. reflexivity. Qed.

Ltac red1 :=
  lazy -[memb remove_first NT_SUCCESS Z.eqb Pos.succ app
          SECUREHOST_WFP_CALLOUT_V4_GUID SECUREHOST_WFP_CALLOUT_V6_GUID
          SECUREHOST_WFP_SUBLAYER_GUID].

Ltac advance :=
  repeat (progress (use_answers;
                    rewrite ?pos_eqb_0, ?memb_head, ?memb_next, ?remove_first_head,
                      ?remove_first_next; red1)).

(** What the activation returns and leaves behind, by the host's
    answers. *)
Lemma register_outcome
    (env : HostCall -> NTSTATUS) (h : HOST) (c : SECUREHOST_DRIVER_CONTEXT) :
  let r := SecureHostRegisterCallouts env (h, c) in
  let e := Z.pos (NextHandle h) in
  let id4 := Z.pos (NextCalloutId h) in
  let id6 := Z.pos (Pos.succ (NextCalloutId h)) in
  if all_steps_succeed env h then
    fst r = STATUS_SUCCESS /\
    Callouts (fst (snd r)) = id6 :: id4 :: Callouts h /\
    OpenEngines (fst (snd r)) = e :: OpenEngines h /\
    Objects (fst (snd r)) =
      Objects h ++ [SECUREHOST_WFP_SUBLAYER_GUID;
                    SECUREHOST_WFP_CALLOUT_V4_GUID;
                    SECUREHOST_WFP_CALLOUT_V6_GUID] /\
    InTransaction (fst (snd r)) = false /\
    Pending (fst (snd r)) = [] /\
    (exists evs, Trace (fst (snd r)) = Trace h ++ evs /\
                 map ev_call evs = registration_steps e) /\
    snd (snd r) =
      set_CalloutIdV6 (set_CalloutIdV4 (set_EngineHandle c e) id4) id6
  else
    Some (fst r) = first_refusal env h /\
    NT_SUCCESS (fst r) = false /\
    Objects (fst (snd r)) = Objects h /\
    RulesList (snd (snd r)) = RulesList c /\
    (EngineHandle c = NULL ->
     Callouts (fst (snd r)) = Callouts h /\
     OpenEngines (fst (snd r)) = OpenEngines h /\
     EngineHandle (snd (snd r)) = NULL).
Proof.
  destruct h as [oe it pe ob co nh nc tr].
  destruct c as [dr eh c4 c6 f4 f6 rl rs nr].
  red1.
  destruct (NT_SUCCESS (env EngineOpen)) eqn:E1; advance.
  2:{ destruct (eh =? 0) eqn:En; red1; repeat split;
        try assumption;
        solve [ apply Z.eqb_eq; exact En
              | intros; match goal with
                        | Hc : eh = 0 |- _ =>
                            rewrite Hc in En; discriminate En
                        end ]. }
  destruct (NT_SUCCESS (env (TransactionBegin (Z.pos nh)))) eqn:E2; advance;
    [| repeat split; assumption].
  destruct (NT_SUCCESS
              (env (CalloutRegister SECUREHOST_WFP_CALLOUT_V4_GUID))) eqn:E3;
    advance; [| repeat split; assumption].
  destruct (NT_SUCCESS
              (env (CalloutRegister SECUREHOST_WFP_CALLOUT_V6_GUID))) eqn:E4;
    advance; [| repeat split; assumption].
  destruct (NT_SUCCESS
              (env (SubLayerAdd (Z.pos nh) SECUREHOST_WFP_SUBLAYER_GUID 0x8000)))
    eqn:E5; advance; [| repeat split; assumption].
  destruct (NT_SUCCESS
              (env (CalloutAdd (Z.pos nh) SECUREHOST_WFP_CALLOUT_V4_GUID
                      FWPM_LAYER_ALE_AUTH_CONNECT_V4))) eqn:E6;
    advance; [| repeat split; assumption].
  destruct (NT_SUCCESS
              (env (CalloutAdd (Z.pos nh) SECUREHOST_WFP_CALLOUT_V6_GUID
                      FWPM_LAYER_ALE_AUTH_CONNECT_V6))) eqn:E7;
    advance; [| repeat split; assumption].
  destruct (NT_SUCCESS (env (TransactionCommit (Z.pos nh)))) eqn:E8; advance;
    [| repeat split; assumption].
  repeat split.
  rewrite <- ?app_assoc. eexists. split; [reflexivity |]. reflexivity.
Qed.

Lemma remove_first_absent x l : memb x l = false -> remove_first x l = l.
Proof.
  induction l as [| y l IH]; [reflexivity |].
  rewrite memb_cons, remove_first_cons. intros H.
  apply orb_false_iff in H. destruct H as [Hx Hl].
  rewrite Hx, IH by exact Hl. reflexivity.
Qed.

(** What a deactivation returns and leaves behind. *)
Lemma unregister_outcome (s : STATE) :
  let r := SecureHostUnregisterCallouts s in
  let h := fst s in
  let c := snd s in
  fst r = STATUS_SUCCESS /\
  Callouts (fst (snd r))
  = drop_id (CalloutIdV6 c) (drop_id (CalloutIdV4 c) (Callouts h)) /\
  OpenEngines (fst (snd r)) = drop_id (EngineHandle c) (OpenEngines h) /\
  Objects (fst (snd r)) = Objects h /\
  Pending (fst (snd r)) = Pending h /\
  InTransaction (fst (snd r)) = InTransaction h /\
  (exists evs, Trace (fst (snd r)) = Trace h ++ evs /\
               map ev_call evs = deactivation_calls c) /\
  snd (snd r) = set_EngineHandle c NULL.
Proof.
  destruct s as [h c].
  destruct h as [oe it pe ob co nh nc tr].
  destruct c as [dr eh c4 c6 f4 f6 rl rs nr].
  lazy -[memb remove_first Z.eqb app].
  destruct (c4 =? 0) eqn:E4; lazy -[memb remove_first Z.eqb app];
    [| destruct (memb c4 co) eqn:M4; lazy -[memb remove_first Z.eqb app];
       rewrite ?(remove_first_absent _ _ M4) ];
    (destruct (c6 =? 0) eqn:E6; lazy -[memb remove_first Z.eqb app];
     [| match goal with
        | |- context [memb c6 ?l] =>
            destruct (memb c6 l) eqn:M6; lazy -[memb remove_first Z.eqb app];
            rewrite ?(remove_first_absent _ _ M6)
        end ]);
    (destruct (eh =? 0) eqn:En; lazy -[memb remove_first Z.eqb app];
     [apply Z.eqb_eq in En; subst eh |]);
    rewrite <- ?app_assoc;
    repeat split;
    try (exists []; rewrite app_nil_r; split; reflexivity);
    eexists; split; reflexivity.
Qed.

Lemma rules_cleanup_drains entry c freed :
  RulesList c = entry ->
  rules_cleanup_loop entry c freed = (set_RulesList c [], freed ++ entry).
Proof.
  revert c freed. induction entry as [| r entry IH]; intros c freed E.
  - destruct c. simpl in E. subst. rewrite app_nil_r. reflexivity.
  - simpl. rewrite IH by reflexivity. rewrite <- app_assoc. reflexivity.
Qed.

(** X9.  The activation reports success exactly when the host grants
    all eight steps, and then returns STATUS_SUCCESS itself, whatever
    success codes the host answered with; otherwise it returns the
    answer to the first step the host refused. *)
Theorem activation_status
    (env : HostCall -> NTSTATUS) (h : HOST) (c : SECUREHOST_DRIVER_CONTEXT) :
  let status := fst (SecureHostRegisterCallouts env (h, c)) in
  (NT_SUCCESS status = true <-> all_steps_succeed env h = true) /\
  (all_steps_succeed env h = true -> status = STATUS_SUCCESS) /\
  (all_steps_succeed env h = false -> Some status = first_refusal env h).
Proof.
  pose proof (register_outcome env h c) as H. cbv zeta in H |- *.
  destruct (all_steps_succeed env h).
  - destruct H as (-> & _). repeat split; intros; try reflexivity.
    discriminate.
  - destruct H as (Hs & Hf & _). rewrite Hf. repeat split; auto;
      intros; discriminate.
Qed.

(** X10.  After a successful activation both callouts are live in the
    host's registry under two distinct nonzero identifiers, which the
    context retains; the engine session is open and its non-NULL handle
    retained; the sublayer and the two callout objects are committed in
    that order and no transaction is left open; the host calls made are
    exactly the eight steps; the other fields of the context are
    untouched. *)
Theorem activation_success_state
    (env : HostCall -> NTSTATUS) (h : HOST) (c : SECUREHOST_DRIVER_CONTEXT) :
  all_steps_succeed env h = true ->
  let r := SecureHostRegisterCallouts env (h, c) in
  let h' := fst (snd r) in
  let c' := snd (snd r) in
  Callouts h' = CalloutIdV6 c' :: CalloutIdV4 c' :: Callouts h /\
  CalloutIdV4 c' <> 0 /\ CalloutIdV6 c' <> 0 /\
  CalloutIdV4 c' <> CalloutIdV6 c' /\
  OpenEngines h' = EngineHandle c' :: OpenEngines h /\
  EngineHandle c' <> NULL /\
  Objects h' =
    Objects h ++ [SECUREHOST_WFP_SUBLAYER_GUID;
                  SECUREHOST_WFP_CALLOUT_V4_GUID;
                  SECUREHOST_WFP_CALLOUT_V6_GUID] /\
  InTransaction h' = false /\ Pending h' = [] /\
  (exists evs, Trace h' = Trace h ++ evs /\
               map ev_call evs = registration_steps (EngineHandle c')) /\
  RulesList c' = RulesList c /\ NextRuleId c' = NextRuleId c /\
  Driver c' = Driver c.
Proof.
  intros Hall. pose proof (register_outcome env h c) as H.
  cbv zeta in H |- *. rewrite Hall in H.
  destruct H as (_ & Hc & Ho & Hob & Hi & Hp & Ht & ->).
  cbn [CalloutIdV4 CalloutIdV6 EngineHandle RulesList NextRuleId Driver
       set_CalloutIdV6 set_CalloutIdV4 set_EngineHandle].
  repeat split; try assumption; try discriminate.
  intros E. injection E as E. lia.
Qed.

(** X11.  A deactivation always returns STATUS_SUCCESS.  It calls the
    host once per nonzero callout identifier and once for a non-NULL
    engine handle, in that order, and for nothing else; it removes the
    registrations and the session behind them, sets the engine handle
    to NULL and leaves every other field of the context, the
    identifiers included, as they were.  On a context with both
    identifiers 0 and a NULL handle it makes no call and changes
    nothing. *)
Theorem deactivation_effect (s : STATE) :
  let r := SecureHostUnregisterCallouts s in
  let h := fst s in
  let c := snd s in
  fst r = STATUS_SUCCESS /\
  Callouts (fst (snd r))
  = drop_id (CalloutIdV6 c) (drop_id (CalloutIdV4 c) (Callouts h)) /\
  OpenEngines (fst (snd r)) = drop_id (EngineHandle c) (OpenEngines h) /\
  Objects (fst (snd r)) = Objects h /\
  (exists evs, Trace (fst (snd r)) = Trace h ++ evs /\
               map ev_call evs = deactivation_calls c) /\
  snd (snd r) = set_EngineHandle c NULL /\
  (CalloutIdV4 c = 0 -> CalloutIdV6 c = 0 -> EngineHandle c = NULL ->
   Trace (fst (snd r)) = Trace h /\ snd (snd r) = c /\
   Callouts (fst (snd r)) = Callouts h /\
   OpenEngines (fst (snd r)) = OpenEngines h).
Proof.
  pose proof (unregister_outcome s) as H. cbv zeta in H |- *.
  destruct H as (Hs & Hc & Ho & Hob & _ & _ & Ht & Hx).
  repeat (split; [assumption |]).
  intros E4 E6 En. rewrite Hc, Ho, Hx.
  destruct Ht as (evs & Ht & Hm). rewrite Ht.
  unfold deactivation_calls, drop_id in *. rewrite E4, E6, En in *.
  cbn in Hm |- *. destruct evs; [| discriminate Hm].
  rewrite app_nil_r. repeat split.
  destruct s as [h c]. destruct c. cbn in En |- *. rewrite En. reflexivity.
Qed.

(** X12.  A load that fails makes nothing stay behind in the host: when
    [WdfDriverCreate] is refused no filter-engine call is made and no
    context exists; when the activation fails its status is returned,
    no callout stays registered, no session stays open, no object is
    added, and the context's engine handle is NULL.  The load succeeds
    exactly when the driver object is created and the host grants all
    eight steps. *)
Theorem driver_entry_outcome
    (env : HostCall -> NTSTATUS) (created : NTSTATUS) (driver : Z)
    (h : HOST) :
  let r := DriverEntry env created driver h in
  let status := fst (fst r) in
  let h' := snd (fst r) in
  (NT_SUCCESS created = false -> r = (created, h, None)) /\
  (NT_SUCCESS status = true <->
   NT_SUCCESS created = true /\ all_steps_succeed env h = true) /\
  (NT_SUCCESS status = true -> status = STATUS_SUCCESS) /\
  (NT_SUCCESS status = false ->
   Callouts h' = Callouts h /\ OpenEngines h' = OpenEngines h /\
   Objects h' = Objects h /\
   forall c, snd r = Some c -> EngineHandle c = NULL) /\
  (NT_SUCCESS created = true -> all_steps_succeed env h = false ->
   Some status = first_refusal env h).
Proof.
  unfold DriverEntry. cbv zeta.
  pose proof (register_outcome env h (DriverEntry_context driver)) as H.
  cbv zeta in H.
  destruct (NT_SUCCESS created) eqn:Ec; cbn [negb].
  - destruct (SecureHostRegisterCallouts env (h, DriverEntry_context driver))
      as [status [h' c']].
    cbn [fst snd] in H.
    destruct (all_steps_succeed env h).
    + destruct H as (-> & _). cbn.
      repeat split; intros; try reflexivity; try discriminate.
    + destruct H as (Hr & Hf & Hob & _ & Hst). rewrite Hf. cbn [negb fst snd].
      destruct (Hst eq_refl) as (Hc & Ho & He).
      split; [intros H0; discriminate H0 |].
      split; [rewrite Hf; intuition discriminate |].
      split; [rewrite Hf; intros H0; discriminate H0 |].
      split; [| intros _ _; exact Hr].
      intros _. repeat split; try assumption.
      intros c E. injection E as <-. exact He.
  - cbn [fst snd]. rewrite Ec.
    split; [reflexivity |].
    split; [intuition discriminate |].
    split; [intros H0; discriminate H0 |].
    split; [| intros H0; discriminate H0].
    intros _. repeat split. intros c E. discriminate E.
Qed.

(** X13.  The unload callback drains the rules list whatever state it
    starts from: every rule is freed once, in list order, the list is
    left empty, the engine handle is NULL, and the host sees exactly the
    calls of one deactivation. *)
Theorem unload_drains_rules
    (s : STATE) (freed : list SECUREHOST_POLICY_RULE) :
  let r := SecureHostEvtDriverUnload s freed in
  let c' := snd (fst r) in
  RulesList c' = [] /\
  snd r = freed ++ RulesList (snd s) /\
  EngineHandle c' = NULL /\
  c' = set_RulesList (set_EngineHandle (snd s) NULL) [] /\
  fst (fst r) = fst (snd (SecureHostUnregisterCallouts s)).
Proof.
  unfold SecureHostEvtDriverUnload. cbv zeta.
  pose proof (unregister_outcome s) as H. cbv zeta in H.
  destruct H as (_ & _ & _ & _ & _ & _ & _ & Hx).
  destruct (SecureHostUnregisterCallouts s) as [st s1].
  cbn [fst snd] in Hx |- *.
  rewrite rules_cleanup_drains by reflexivity.
  cbn [fst snd]. rewrite Hx. repeat split.
Qed.

(** X14.  Load followed by unload gives the host's callout registry and
    its open sessions back as they were and leaves the context with a
    NULL engine handle and an empty rules list; the three objects
    committed at load stay in the engine, and the context still holds
    the two callout identifiers. *)
Theorem load_then_unload
    (env : HostCall -> NTSTATUS) (created : NTSTATUS) (driver : Z)
    (h h' : HOST) (c : SECUREHOST_DRIVER_CONTEXT)
    (freed : list SECUREHOST_POLICY_RULE) :
  DriverEntry env created driver h = (STATUS_SUCCESS, h', Some c) ->
  let r := SecureHostEvtDriverUnload (h', c) freed in
  let h'' := fst (fst r) in
  let c'' := snd (fst r) in
  Callouts h'' = Callouts h /\
  OpenEngines h'' = OpenEngines h /\
  EngineHandle c'' = NULL /\
  RulesList c'' = [] /\
  snd r = freed /\
  Objects h'' =
    Objects h ++ [SECUREHOST_WFP_SUBLAYER_GUID;
                  SECUREHOST_WFP_CALLOUT_V4_GUID;
                  SECUREHOST_WFP_CALLOUT_V6_GUID] /\
  CalloutIdV4 c'' = CalloutIdV4 c /\ CalloutIdV4 c'' <> 0 /\
  CalloutIdV6 c'' = CalloutIdV6 c /\ CalloutIdV6 c'' <> 0.
Proof.
  unfold DriverEntry. cbv zeta.
  pose proof (register_outcome env h (DriverEntry_context driver)) as H.
  cbv zeta in H.
  destruct (NT_SUCCESS created) eqn:Ec; cbn [negb];
    [| intros E; injection E as E _ _; rewrite E in Ec; discriminate Ec].
  destruct (SecureHostRegisterCallouts env (h, DriverEntry_context driver))
    as [status [h1 c1]].
  cbn [fst snd] in H.
  destruct (all_steps_succeed env h).
  2:{ destruct H as (_ & Hf & _). rewrite Hf. cbn [negb].
      intros E. injection E as E _ _. rewrite E in Hf. discriminate Hf. }
  destruct H as (-> & Hc & Ho & Hob & _ & _ & _ & Hx).
  cbn. intros E. injection E as <- <-.
  pose proof (unload_drains_rules (h1, c1) freed) as Hu.
  pose proof (unregister_outcome (h1, c1)) as Hd.
  cbv zeta in Hu, Hd. cbn [fst snd] in Hu, Hd.
  destruct Hu as (Hr & Hfr & He & Hc'' & Hh'').
  destruct Hd as (_ & Hdc & Hdo & Hdob & _).
  rewrite Hh'', Hdc, Hdo, Hdob, Hfr, Hc'', Hc, Ho, Hob, Hx.
  unfold drop_id.
  cbn [CalloutIdV4 CalloutIdV6 EngineHandle RulesList set_RulesList
       set_CalloutIdV6 set_CalloutIdV4 set_EngineHandle DriverEntry_context].
  rewrite !pos_eqb_0, remove_first_next, !remove_first_head, app_nil_r.
  repeat split; discriminate.
Qed.

Section ClassifyExtra.

Context {layout : HostLayout}.

Lemma clear_bits32_twice (x m : Z) :
  clear_bits32 (clear_bits32 x m) m = clear_bits32 x m.
Proof.
  unfold clear_bits32. rewrite <- Z.land_assoc, Z.land_diag. reflexivity.
Qed.

(** X15.  The callback is idempotent on its output: run again on what it
    returned, for the same event and filter, it returns the same
    verdict, rights mask and printed details. *)
Theorem classify_is_idempotent
    (Ctx : SECUREHOST_DRIVER_CONTEXT)
    (fixed : FWPS_INCOMING_VALUES0) (meta : FWPS_INCOMING_METADATA_VALUES0)
    (filter : FWPS_FILTER3) (out out1 : FWPS_CLASSIFY_OUT0)
    (printed : Connection) :
  SecureHostClassifyFn Ctx fixed meta filter out
  = Some (out1, printed, Ctx) ->
  SecureHostClassifyFn Ctx fixed meta filter out1
  = Some (out1, printed, Ctx).
Proof.
  unfold SecureHostClassifyFn.
  destruct (nth_error _ FWPS_FIELD_ALE_AUTH_CONNECT_V4_IP_LOCAL_PORT);
    [| discriminate].
  destruct (nth_error _ FWPS_FIELD_ALE_AUTH_CONNECT_V4_IP_REMOTE_PORT);
    [| discriminate].
  destruct (nth_error _ FWPS_FIELD_ALE_AUTH_CONNECT_V4_DIRECTION);
    [| discriminate].
  intros E. injection E as <- <-.
  destruct (negb _); cbn; [rewrite clear_bits32_twice |]; reflexivity.
Qed.

End ClassifyExtra.

Lemma activation_status_witness :
  all_steps_succeed commit_fails busy_host = false /\
  Some (fst (SecureHostRegisterCallouts commit_fails
               (busy_host, DriverEntry_context 99)))
  = first_refusal commit_fails busy_host /\
  all_steps_succeed all_succeed busy_host = true /\
  fst (SecureHostRegisterCallouts all_succeed
         (busy_host, DriverEntry_context 99)) = STATUS_SUCCESS.
Proof.
  split; [reflexivity |]. split.
  - pose proof (activation_status commit_fails busy_host
                  (DriverEntry_context 99)) as H.
    cbv zeta in H. destruct H as (_ & _ & H). exact (H eq_refl).
  - split; [reflexivity |].
    pose proof (activation_status all_succeed busy_host
                  (DriverEntry_context 99)) as H.
    cbv zeta in H. destruct H as (_ & H & _). exact (H eq_refl).
Defined.

Lemma activation_success_state_witness :
  all_steps_succeed all_succeed busy_host = true /\
  Callouts (fst (snd (SecureHostRegisterCallouts all_succeed
                        (busy_host, DriverEntry_context 99))))
  = CalloutIdV6 (snd (snd (SecureHostRegisterCallouts all_succeed
                             (busy_host, DriverEntry_context 99))))
    :: CalloutIdV4 (snd (snd (SecureHostRegisterCallouts all_succeed
                                (busy_host, DriverEntry_context 99))))
    :: Callouts busy_host.
Proof.
  split; [reflexivity |].
  pose proof (activation_success_state all_succeed busy_host
                (DriverEntry_context 99) eq_refl) as H.
  cbv zeta in H. destruct H as (H & _). exact H.
Defined.

Lemma deactivation_effect_witness :
  CalloutIdV4 (DriverEntry_context 99) = 0 /\
  CalloutIdV6 (DriverEntry_context 99) = 0 /\
  EngineHandle (DriverEntry_context 99) = NULL /\
  Trace (fst (snd (SecureHostUnregisterCallouts
                     (busy_host, DriverEntry_context 99))))
  = Trace busy_host /\
  snd (snd (SecureHostUnregisterCallouts (busy_host, DriverEntry_context 99)))
  = DriverEntry_context 99.
Proof.
  split; [reflexivity |]. split; [reflexivity |]. split; [reflexivity |].
  pose proof (deactivation_effect (busy_host, DriverEntry_context 99)) as H.
  cbv zeta in H. destruct H as (_ & _ & _ & _ & _ & _ & H).
  destruct (H eq_refl eq_refl eq_refl) as (Ht & Hc & _).
  split; [exact Ht | exact Hc].
Defined.

Lemma driver_entry_outcome_witness :
  NT_SUCCESS (fst (fst (DriverEntry commit_fails STATUS_SUCCESS 99 busy_host)))
  = false /\
  Callouts (snd (fst (DriverEntry commit_fails STATUS_SUCCESS 99 busy_host)))
  = Callouts busy_host /\
  OpenEngines (snd (fst (DriverEntry commit_fails STATUS_SUCCESS 99 busy_host)))
  = OpenEngines busy_host /\
  NT_SUCCESS STATUS_ACCESS_DENIED = false /\
  DriverEntry all_succeed STATUS_ACCESS_DENIED 99 busy_host
  = (STATUS_ACCESS_DENIED, busy_host, None).
Proof.
  assert (Hf : NT_SUCCESS
                 (fst (fst (DriverEntry commit_fails STATUS_SUCCESS 99
                              busy_host))) = false) by reflexivity.
  split; [exact Hf |].
  pose proof (driver_entry_outcome commit_fails STATUS_SUCCESS 99 busy_host)
    as H.
  cbv zeta in H. destruct H as (_ & _ & _ & H & _).
  destruct (H Hf) as (Hc & Ho & _).
  split; [exact Hc |]. split; [exact Ho |]. split; [reflexivity |].
  pose proof (driver_entry_outcome all_succeed STATUS_ACCESS_DENIED 99
                busy_host) as H2.
  cbv zeta in H2. destruct H2 as (H2 & _). exact (H2 eq_refl).
Defined.

Lemma load_then_unload_witness :
  DriverEntry all_succeed STATUS_SUCCESS 99 busy_host
  = (STATUS_SUCCESS,
     snd (fst (DriverEntry all_succeed STATUS_SUCCESS 99 busy_host)),
     Some {| Driver := 99; EngineHandle := 7; CalloutIdV4 := 3;
             CalloutIdV6 := 4; FilterIdV4 := 0; FilterIdV6 := 0;
             RulesLock := 0; RulesList := []; NextRuleId := 1 |}) /\
  Callouts
    (fst (fst (SecureHostEvtDriverUnload
                 (snd (fst (DriverEntry all_succeed STATUS_SUCCESS 99
                              busy_host)),
                  {| Driver := 99; EngineHandle := 7; CalloutIdV4 := 3;
                     CalloutIdV6 := 4; FilterIdV4 := 0; FilterIdV6 := 0;
                     RulesLock := 0; RulesList := []; NextRuleId := 1 |})
                 two_rules)))
  = Callouts busy_host.
Proof.
  assert (H : DriverEntry all_succeed STATUS_SUCCESS 99 busy_host
              = (STATUS_SUCCESS,
                 snd (fst (DriverEntry all_succeed STATUS_SUCCESS 99
                             busy_host)),
                 Some {| Driver := 99; EngineHandle := 7; CalloutIdV4 := 3;
                         CalloutIdV6 := 4; FilterIdV4 := 0; FilterIdV6 := 0;
                         RulesLock := 0; RulesList := []; NextRuleId := 1 |}))
    by (vm_compute; reflexivity).
  split; [exact H |].
  pose proof (load_then_unload all_succeed STATUS_SUCCESS 99 busy_host _ _
                two_rules H) as L.
  cbv zeta in L. destruct L as (L & _). exact L.
Defined.

Lemma classify_is_idempotent_witness :
  @SecureHostClassifyFn sample_layout context_with_block_rule sample_values
    meta_with_pid filter_clearing out_all_rights
  = Some ({| actionType := FWP_ACTION_PERMIT; outContext := 0;
             outFilterId := 0; rights := 0x2; outFlags := 0 |},
          {| processId := 100; localPort := 443; remotePort := 51000;
             direction := 1 |},
          context_with_block_rule) /\
  @SecureHostClassifyFn sample_layout context_with_block_rule sample_values
    meta_with_pid filter_clearing
    {| actionType := FWP_ACTION_PERMIT; outContext := 0;
       outFilterId := 0; rights := 0x2; outFlags := 0 |}
  = Some ({| actionType := FWP_ACTION_PERMIT; outContext := 0;
             outFilterId := 0; rights := 0x2; outFlags := 0 |},
          {| processId := 100; localPort := 443; remotePort := 51000;
             direction := 1 |},
          context_with_block_rule).
Proof.
  assert (H : @SecureHostClassifyFn sample_layout context_with_block_rule
                sample_values meta_with_pid filter_clearing out_all_rights
              = Some ({| actionType := FWP_ACTION_PERMIT; outContext := 0;
                         outFilterId := 0; rights := 0x2; outFlags := 0 |},
                      {| processId := 100; localPort := 443;
                         remotePort := 51000; direction := 1 |},
                      context_with_block_rule)) by reflexivity.
  split; [exact H |].
  exact (@classify_is_idempotent sample_layout _ _ _ _ _ _ _ H).
Defined.

End WfpExtra.
